(** * ecg2scp: export of an ECG recording to an SCP-ECG file

    A shallow embedding of [ecg2scp.py] (class [ECGBasic], method
    [export_scp]) and the properties of the byte stream it produces.

    Python integers are [Z]; [bytes] objects are lists of [Byte.byte];
    the section dictionary [s] is a [gmap Z bytes]; exceptions are the
    [Raise] branch of [result]; the file system is threaded explicitly. *)

From Stdlib Require Import ZArith Lia.
From Stdlib.Strings Require Import Byte String.
From stdpp Require Import base option list gmap strings.

Local Open Scope Z_scope.

(** ** Exceptions and the error monad *)

Inductive exn : Type :=
| AttributeError (attr : string)
| KeyError (key : Z)
| StructError
| ZeroDivisionError
| OverflowError
| OSError.

Inductive result (A : Type) : Type :=
| Ok (a : A)
| Raise (e : exn).
Arguments Ok {A} a.
Arguments Raise {A} e.

#[global] Instance result_ret : MRet result := fun A a => Ok a.
#[global] Instance result_bind : MBind result := fun A B f m =>
  match m with
  | Ok a => f a
  | Raise e => Raise e
  end.

(** A Python [for x in xs: body] whose body updates the loop state [S]
    and may raise. *)
Fixpoint for_each {S X : Type} (xs : list X) (body : X -> S -> result S)
    (s : S) : result S :=
  match xs with
  | [] => Ok s
  | x :: xs' => s' ← body x s; for_each xs' body s'
  end.

(** [range(n)] *)
Definition range (n : Z) : list Z := seqZ 0 n.

(** ** Bytes and [struct.pack] *)

Abbreviation bytes := (list byte).

Definition byte_of_Z (z : Z) : byte :=
  default "000"%byte (Byte.of_N (Z.to_N (Z.land z 255))).

Definition Z_of_byte (b : byte) : Z := Z.of_N (Byte.to_N b).

(** Little-endian two's complement encoding on [n] bytes. *)
Fixpoint le_bytes (n : nat) (z : Z) : bytes :=
  match n with
  | O => []
  | S n' => byte_of_Z z :: le_bytes n' (Z.shiftr z 8)
  end.

Fixpoint le_decode (bs : bytes) : Z :=
  match bs with
  | [] => 0
  | b :: bs' => Z_of_byte b + 256 * le_decode bs'
  end.

Definition pack_range (lo hi : Z) (n : nat) (z : Z) : result bytes :=
  if bool_decide (lo <= z <= hi) then Ok (le_bytes n z) else Raise StructError.

(** [struct.pack('<B', z)], [struct.pack('<H', z)], [struct.pack('<I', z)],
    [struct.pack('<h', z)]: out of range values raise [struct.error]. *)
Definition pack_B : Z -> result bytes := pack_range 0 255 1.
Definition pack_H : Z -> result bytes := pack_range 0 65535 2.
Definition pack_I : Z -> result bytes := pack_range 0 4294967295 4.
Definition pack_h : Z -> result bytes := pack_range (-32768) 32767 2.


Definition len (bs : bytes) : Z := Z.of_nat (length bs).

(** ** [binascii.crc_hqx]

    The CRC-CCITT polynomial x^16 + x^12 + x^5 + 1 (0x1021), most
    significant bit first, starting from the register [value]; no
    reflection and no final exclusive-or. *)

Definition crc_shift (crc : Z) : Z :=
  if Z.testbit crc 15
  then Z.land (Z.lxor (Z.shiftl crc 1) 4129) 65535
  else Z.land (Z.shiftl crc 1) 65535.

Definition crc_update (crc : Z) (b : byte) : Z :=
  Nat.iter 8 crc_shift (Z.land (Z.lxor crc (Z.shiftl (Z_of_byte b) 8)) 65535).

Definition crc_hqx (data : bytes) (value : Z) : Z :=
  fold_left crc_update data (Z.land value 65535).

Definition ascii_bytes (s : string) : bytes := list_byte_of_string s.


(** ** Data model *)

(** A two-dimensional [numpy] array: its shape and its items, read with
    [data[i, j]] for [0 <= i < shape0] and [0 <= j < shape1]. *)
Record ndarray : Type := {
  shape0 : N;
  shape1 : N;
  item : Z -> Z -> Z
}.

Definition np_zeros (n m : N) : ndarray :=
  {| shape0 := n; shape1 := m; item := fun _ _ => 0 |}.

(** [datetime.datetime] *)
Record datetime : Type := {
  year : Z; month : Z; day : Z; hour : Z; minute : Z; second : Z
}.

(** The attributes of an [ECGBasic] instance. *)
Record ECGBasic : Type := {
  data : ndarray;
  sample_bits : Z;
  sample_rate : Z;
  ampl_nanovolt : Z;
  timestamp : datetime;
  patient_name : string;
  patient_case : string;
  patient_sex : Z;
  patient_weight : Z;
  patient_age : Z
}.

(** The properties [n_leads] and [n_samples]. *)
Definition n_leads (self : ECGBasic) : Z := Z.of_N (shape0 (data self)).
Definition n_samples (self : ECGBasic) : Z := Z.of_N (shape1 (data self)).

(** ** [ECGBasic.__init__]

    While [__init__] runs, the instance has no [data] attribute until
    the first assignment completes; the properties read that attribute. *)

Definition getattr_data (inst_data : option ndarray) : result ndarray :=
  match inst_data with
  | Some d => Ok d
  | None => Raise (AttributeError "data")
  end.

Definition n_leads_prop (inst_data : option ndarray) : result N :=
  d ← getattr_data inst_data; mret (shape0 d).

Definition n_samples_prop (inst_data : option ndarray) : result N :=
  d ← getattr_data inst_data; mret (shape1 d).

Definition init (data_arg : option ndarray) : result ECGBasic :=
  let inst_data : option ndarray := None in
  d ← match data_arg with
      | None =>
          nl ← n_leads_prop inst_data;
          ns ← n_samples_prop inst_data;
          mret (np_zeros nl ns)
      | Some d => mret d
      end;
  mret {| data := d;
          sample_bits := 16;
          sample_rate := 500;
          ampl_nanovolt := 5000;
          timestamp := {| year := 2022; month := 1; day := 1;
                          hour := 1; minute := 1; second := 1 |};
          patient_name := "anonymized";
          patient_case := "unknown_case";
          patient_sex := 0;
          patient_weight := 0;
          patient_age := 0 |}.

(** ** The [ecg_scp] module

    [ecg_scp] is imported by the source but is not part of it: its
    constants and encoders are taken as an interface. *)

Class ScpModule : Type := {
  SECTION_HEADER_LEN : Z;
  POINTER_FIELD_LEN : Z;
  SCPECG_HEADER_LEN : Z;
  LEAD_I : Z; LEAD_II : Z; LEAD_III : Z;
  LEAD_AVR : Z; LEAD_AVL : Z; LEAD_AVF : Z;
  LEAD_V1 : Z; LEAD_V2 : Z; LEAD_V3 : Z;
  LEAD_V4 : Z; LEAD_V5 : Z; LEAD_V6 : Z;
  SEX_MALE : Z; SEX_FEMALE : Z; SEX_UNKNOWN : Z;
  WEIGHT_UNSPECIFIED : Z; WEIGHT_KILOGRAM : Z;
  AGE_UNSPECIFIED : Z; AGE_YEARS : Z;
  TAG_PATIENT_ID : Z; TAG_ECG_SEQ_NUM : Z; TAG_PATIENT_LAST_NAME : Z;
  TAG_PATIENT_SEX : Z; TAG_PATIENT_WEIGHT : Z; TAG_PATIENT_AGE : Z;
  TAG_DATE_ACQ : Z; TAG_TIME_ACQ : Z; TAG_ACQ_DEV_ID : Z; TAG_EOF : Z;
  ALL_SIMULTANEOUS_READ : Z;
  ENCODING_REAL : Z;
  BIMODAL_COMPRESSION_FALSE : Z;
  make_pointer_field : Z -> Z -> Z -> bytes;
  make_tag : Z -> bytes -> bytes;
  make_asciiz : string -> bytes;
  make_3bytes_intval_unit : Z -> Z -> bytes;
  make_date : datetime -> bytes;
  make_time : datetime -> bytes;
  make_machine_id : string -> bytes;
  pack_section : Z -> bytes -> bytes
}.

(** ** The file system *)

Record filesystem : Type := {
  files : gmap string bytes;
  locked : gset string
}.

(** [open(filename, "wb")]: fails on a path that cannot be written,
    otherwise truncates the file. *)
Definition open_wb (fs : filesystem) (filename : string) : result filesystem :=
  if bool_decide (filename ∈ locked fs) then Raise OSError
  else Ok {| files := <[filename := []]> (files fs); locked := locked fs |}.

(** [f.write(b)] on a file opened by [open_wb]. *)
Definition write (fs : filesystem) (filename : string) (b : bytes) : filesystem :=
  {| files := <[filename := default [] (files fs !! filename) ++ b]> (files fs);
     locked := locked fs |}.

(** ** [ECGBasic.export_scp] *)

Abbreviation sections := (gmap Z bytes).

Definition getitem (s : sections) (k : Z) : result bytes :=
  match s !! k with
  | Some v => Ok v
  | None => Raise (KeyError k)
  end.

(** [s[k] += b] *)
Definition iadd (s : sections) (k : Z) (b : bytes) : result sections :=
  v ← getitem s k; mret (<[k := v ++ b]> s).

Section ExportScp.
Context `{scp : ScpModule}.

Definition LEADS_ORDER_GENERAL : gmap Z Z :=
  list_to_map
    [ (0, LEAD_I); (1, LEAD_II); (2, LEAD_III);
      (3, LEAD_AVR); (4, LEAD_AVL); (5, LEAD_AVF);
      (6, LEAD_V1); (7, LEAD_V2); (8, LEAD_V3);
      (9, LEAD_V4); (10, LEAD_V5); (11, LEAD_V6) ].

Definition lead_lookup (i : Z) : result Z :=
  match LEADS_ORDER_GENERAL !! i with
  | Some c => Ok c
  | None => Raise (KeyError i)
  end.

(** Lines 68-70: every section starts empty. *)
Definition empty_sections : sections :=
  foldl (fun s sect_id => <[sect_id := []]> s) ∅ (range 12).

(** Lines 73-83: Section 0, the section pointers. The loop state is
    the dictionary and the running [index]. *)
Definition pointer_step (sect_id : Z) (st : sections * Z)
    : result (sections * Z) :=
  let '(s, index) := st in
  p ← getitem s sect_id;
  let length := len p in
  let length := if bool_decide (length > 0)
                then length + SECTION_HEADER_LEN else length in
  s ← iadd s 0 (make_pointer_field sect_id length index);
  mret (s, index + length).

Definition build_pointers (s : sections) : result sections :=
  let sect_id := 0 in
  let length := SECTION_HEADER_LEN + POINTER_FIELD_LEN * 12 in
  let index := SCPECG_HEADER_LEN + 1 in
  let s := <[0 := make_pointer_field sect_id length index]> s in
  let index := index + length in
  st ← for_each (seqZ 1 11) pointer_step (s, index);
  mret (fst st).

(** Lines 86-108: Section 1, the patient data. *)
Definition sex_code (self : ECGBasic) : Z :=
  if bool_decide (patient_sex self = 1) then SEX_MALE
  else if bool_decide (patient_sex self = 0) then SEX_FEMALE
  else SEX_UNKNOWN.

Definition weight_unit (self : ECGBasic) : Z :=
  if bool_decide (patient_weight self = 0)
  then WEIGHT_UNSPECIFIED else WEIGHT_KILOGRAM.

Definition age_unit (self : ECGBasic) : Z :=
  if bool_decide (patient_age self = 0) then AGE_UNSPECIFIED else AGE_YEARS.

Definition build_patient (self : ECGBasic) (s : sections) : result sections :=
  let s := <[1 := make_tag TAG_PATIENT_ID (make_asciiz (patient_name self))]> s in
  s ← iadd s 1 (make_tag TAG_ECG_SEQ_NUM (make_asciiz (patient_case self)));
  s ← iadd s 1 (make_tag TAG_PATIENT_LAST_NAME (make_asciiz (patient_name self)));
  sex ← pack_B (sex_code self);
  s ← iadd s 1 (make_tag TAG_PATIENT_SEX sex);
  s ← iadd s 1 (make_tag TAG_PATIENT_WEIGHT
                  (make_3bytes_intval_unit (patient_weight self) (weight_unit self)));
  s ← iadd s 1 (make_tag TAG_PATIENT_AGE
                  (make_3bytes_intval_unit (patient_age self) (age_unit self)));
  s ← iadd s 1 (make_tag TAG_DATE_ACQ (make_date (timestamp self)));
  s ← iadd s 1 (make_tag TAG_TIME_ACQ (make_time (timestamp self)));
  s ← iadd s 1 (make_tag TAG_ACQ_DEV_ID (make_machine_id "unknown_machine"));
  iadd s 1 (make_tag TAG_EOF []).

(** Lines 111-123: Section 3, the lead definition. *)
Definition lead_step (self : ECGBasic) (i : Z) (s : sections) : result sections :=
  let starting_sample := 1 in
  let ending_sample := n_samples self in
  lead_id ← lead_lookup i;
  b ← pack_I starting_sample;
  s ← iadd s 3 b;
  b ← pack_I ending_sample;
  s ← iadd s 3 b;
  b ← pack_B lead_id;
  iadd s 3 b.

Definition build_leads (self : ECGBasic) (s : sections) : result sections :=
  let leads_number := n_leads self in
  let flag_byte := 0 in
  let flag_byte := Z.lor flag_byte ALL_SIMULTANEOUS_READ in
  let flag_byte := Z.lor flag_byte (Z.shiftl leads_number 3) in
  b ← pack_B leads_number;
  let s := <[3 := b]> s in
  b ← pack_B flag_byte;
  s ← iadd s 3 b;
  for_each (range leads_number) (lead_step self) s.

(** Lines 126-144: Section 6, the rhythm data. *)

(** [int(1e6 / rate)]: true division of a float by an integer, then
    truncation towards zero. For an integer [rate] below 2^1024 in
    magnitude this is the truncated integer quotient: a quotient that
    is not an integer lies at least [1/|rate|] away from the nearest
    one, which is more than the rounding error of the division. *)
Definition int_1e6_div (rate : Z) : result Z :=
  if bool_decide (rate = 0) then Raise ZeroDivisionError
  else if bool_decide (2 ^ 1024 <= Z.abs rate) then Raise OverflowError
  else Ok (Z.quot 1000000 rate).

(** [int(0xffff / 2)] *)
Definition max_samples : Z := 65535 `quot` 2.

Definition serie_step (self : ECGBasic) (i j : Z) (serie : bytes) : result bytes :=
  b ← pack_h (item (data self) i j);
  mret (serie ++ b).

Definition rhythm_step (self : ECGBasic) (n : Z) (i : Z) (s : sections)
    : result sections :=
  serie ← for_each (range n) (serie_step self i) [];
  iadd s 6 serie.

Definition build_rhythm (self : ECGBasic) (s : sections) : result sections :=
  let amplitude_multiplier := ampl_nanovolt self in
  sample_time_interval ← int_1e6_div (sample_rate self);
  b ← pack_H amplitude_multiplier;
  let s := <[6 := b]> s in
  b ← pack_H sample_time_interval;
  s ← iadd s 6 b;
  b ← pack_B ENCODING_REAL;
  s ← iadd s 6 b;
  b ← pack_B BIMODAL_COMPRESSION_FALSE;
  s ← iadd s 6 b;
  let n := Z.min (n_samples self) max_samples in
  let bytes_to_store := n * 2 in
  s ← for_each (range (n_leads self))
        (fun _ s => b ← pack_H bytes_to_store; iadd s 6 b) s;
  for_each (range (n_leads self)) (rhythm_step self n) s.

(** Lines 150-158: the record and its checksum. *)
Definition size_step (s : sections) (sect_id : Z) (size : Z) : result Z :=
  p ← getitem s sect_id;
  mret (if bool_decide (len p > 0)
        then size + (SECTION_HEADER_LEN + len p) else size).

Definition record_step (s : sections) (sect_id : Z) (scp_ecg : bytes)
    : result bytes :=
  p ← getitem s sect_id;
  mret (if bool_decide (len p > 0)
        then scp_ecg ++ pack_section sect_id p else scp_ecg).

Definition assembled : list Z := [0; 1; 2; 3; 6].

Definition build_record (s : sections) : result bytes :=
  size ← for_each assembled (size_step s) SCPECG_HEADER_LEN;
  scp_ecg ← pack_I size;
  for_each assembled (record_step s) scp_ecg.

(** The dictionary [s] when line 146 is reached. *)
Definition build_sections (self : ECGBasic) : result sections :=
  s ← build_pointers empty_sections;
  s ← build_patient self s;
  s ← build_leads self s;
  build_rhythm self s.

(** The bytes handed to [f.write]: [crc + scp_ecg]. *)
Definition build_file (self : ECGBasic) : result bytes :=
  s ← build_sections self;
  scp_ecg ← build_record s;
  crc ← pack_H (crc_hqx scp_ecg 65535);
  mret (crc ++ scp_ecg).

(** An exception leaves the file system as it was at that point:
    nothing touches it before [open]. *)
Definition export_scp (self : ECGBasic) (filename : string) (fs : filesystem)
    : result string * filesystem :=
  match build_file self with
  | Raise e => (Raise e, fs)
  | Ok content =>
      match open_wb fs filename with
      | Raise e => (Raise e, fs)
      | Ok fs' => (Ok filename, write fs' filename content)
      end
  end.

End ExportScp.

(** ** Payloads and record in closed form

    The values that the export computes, written as functions of the
    instance; the lemmas below relate them to [export_scp]. *)

Section Derived.
Context `{scp : ScpModule}.

(** [gather f xs] is the concatenation of the chunks [f x], raising the
    first exception met. *)
Fixpoint gather {X} (f : X -> result bytes) (xs : list X) : result bytes :=
  match xs with
  | [] => Ok []
  | x :: xs' => b ← f x; r ← gather f xs'; mret (b ++ r)
  end.

Definition declared_length (p : bytes) : Z :=
  if bool_decide (len p > 0) then len p + SECTION_HEADER_LEN else len p.

(** The pointer fields of the sections [ids], read from the payloads
    that [s] holds, the cursor starting at [index]. *)
Fixpoint pointer_fields (s : sections) (ids : list Z) (index : Z) : bytes :=
  match ids with
  | [] => []
  | sect_id :: ids' =>
      let length := declared_length (s !!! sect_id) in
      make_pointer_field sect_id length index
      ++ pointer_fields s ids' (index + length)
  end.

Definition section0_length : Z := SECTION_HEADER_LEN + POINTER_FIELD_LEN * 12.

(** The pointer table that describes the payloads held by [s]. *)
Definition pointer_table_for (s : sections) : bytes :=
  make_pointer_field 0 section0_length (SCPECG_HEADER_LEN + 1)
  ++ pointer_fields s (seqZ 1 11) (SCPECG_HEADER_LEN + 1 + section0_length).

(** Every entry written by line 82 has length 0 and the same offset:
    when the loop runs, all the payloads are still empty. *)
Definition empty_pointer_table : bytes :=
  make_pointer_field 0 section0_length (SCPECG_HEADER_LEN + 1)
  ++ concat (map (fun sect_id =>
                    make_pointer_field sect_id 0
                      (SCPECG_HEADER_LEN + 1 + section0_length))
               (seqZ 1 11)).

(** The tagged fields of Section 1, in the order they are appended,
    [sex] being the packed sex byte. *)
Definition patient_fields (self : ECGBasic) (sex : bytes) : list (Z * bytes) :=
  [ (TAG_PATIENT_ID, make_asciiz (patient_name self));
    (TAG_ECG_SEQ_NUM, make_asciiz (patient_case self));
    (TAG_PATIENT_LAST_NAME, make_asciiz (patient_name self));
    (TAG_PATIENT_SEX, sex);
    (TAG_PATIENT_WEIGHT,
      make_3bytes_intval_unit (patient_weight self) (weight_unit self));
    (TAG_PATIENT_AGE,
      make_3bytes_intval_unit (patient_age self) (age_unit self));
    (TAG_DATE_ACQ, make_date (timestamp self));
    (TAG_TIME_ACQ, make_time (timestamp self));
    (TAG_ACQ_DEV_ID, make_machine_id "unknown_machine");
    (TAG_EOF, []) ].

Definition encode_fields (fields : list (Z * bytes)) : bytes :=
  concat (map (fun tv => make_tag (fst tv) (snd tv)) fields).

Definition patient_payload (self : ECGBasic) : result bytes :=
  sex ← pack_B (sex_code self);
  mret (encode_fields (patient_fields self sex)).

Definition flag_byte_of (leads_number : Z) : Z :=
  Z.lor (Z.lor 0 ALL_SIMULTANEOUS_READ) (Z.shiftl leads_number 3).

Definition lead_entry (self : ECGBasic) (i : Z) : result bytes :=
  lead_id ← lead_lookup i;
  a ← pack_I 1;
  b ← pack_I (n_samples self);
  c ← pack_B lead_id;
  mret (a ++ b ++ c).

Definition leads_payload (self : ECGBasic) : result bytes :=
  b1 ← pack_B (n_leads self);
  b2 ← pack_B (flag_byte_of (n_leads self));
  es ← gather (lead_entry self) (range (n_leads self));
  mret (b1 ++ b2 ++ es).

Definition capped_samples (self : ECGBasic) : Z :=
  Z.min (n_samples self) max_samples.

Definition serie (self : ECGBasic) (i : Z) : result bytes :=
  gather (fun j => pack_h (item (data self) i j)) (range (capped_samples self)).

Definition rhythm_payload (self : ECGBasic) : result bytes :=
  interval ← int_1e6_div (sample_rate self);
  a ← pack_H (ampl_nanovolt self);
  b ← pack_H interval;
  c ← pack_B ENCODING_REAL;
  d ← pack_B BIMODAL_COMPRESSION_FALSE;
  counts ← gather (fun _ => pack_H (capped_samples self * 2)) (range (n_leads self));
  series ← gather (serie self) (range (n_leads self));
  mret (a ++ b ++ c ++ d ++ counts ++ series).

Definition final_sections (p1 p3 p6 : bytes) : sections :=
  <[6 := p6]> (<[3 := p3]> (<[1 := p1]> (<[0 := empty_pointer_table]> empty_sections))).

Definition sumZ (l : list Z) : Z := foldr Z.add 0 l.

Definition populated (s : sections) (sect_id : Z) : Prop := len (s !!! sect_id) > 0.

#[global] Instance populated_dec s sect_id : Decision (populated s sect_id).
Proof. unfold populated. apply _. Defined.

(** The ids of the sections with a nonzero payload, in ascending order. *)
Definition present (s : sections) : list Z := filter (populated s) (range 12).

Definition record_size (s : sections) : Z :=
  SCPECG_HEADER_LEN
  + sumZ (map (fun sect_id => SECTION_HEADER_LEN + len (s !!! sect_id)) (present s)).

Definition record_blocks (s : sections) : bytes :=
  concat (map (fun sect_id => pack_section sect_id (s !!! sect_id)) (present s)).

(** The exceptions that more than 12 leads can end in. *)
Definition lead_failure (e : exn) : Prop := e = KeyError 12 \/ e = StructError.

(** A value that fits one unsigned byte. *)
Definition is_byte (z : Z) : Prop := 0 <= z <= 255.

(** The lead codes in the order I, II, III, aVR, aVL, aVF, V1..V6. *)
Definition canonical_lead_codes : list Z :=
  [ LEAD_I; LEAD_II; LEAD_III; LEAD_AVR; LEAD_AVL; LEAD_AVF;
    LEAD_V1; LEAD_V2; LEAD_V3; LEAD_V4; LEAD_V5; LEAD_V6 ].

Definition lead_codes_are_bytes : Prop := Forall is_byte canonical_lead_codes.

(** One lead entry of Section 3: first sample, last sample, lead code. *)
Definition lead_record (self : ECGBasic) (code : Z) : bytes :=
  le_bytes 4 1 ++ le_bytes 4 (n_samples self) ++ le_bytes 1 code.

(** Section 3 as laid out for a recording of at most 12 leads. *)
Definition lead_definition (self : ECGBasic) : bytes :=
  le_bytes 1 (n_leads self)
  ++ le_bytes 1 (Z.lor ALL_SIMULTANEOUS_READ (Z.shiftl (n_leads self) 3))
  ++ concat (map (lead_record self)
               (take (Z.to_nat (n_leads self)) canonical_lead_codes)).

(** The samples of lead [i] that are encoded, each on two bytes. *)
Definition encoded_serie (self : ECGBasic) (i : Z) : bytes :=
  concat (map (fun j => le_bytes 2 (item (data self) i j))
            (range (Z.min (n_samples self) 32767))).

(** Section 6: header, one byte count per lead, then the series. *)
Definition rhythm_data (self : ECGBasic) : bytes :=
  le_bytes 2 (ampl_nanovolt self)
  ++ le_bytes 2 (1000000 `quot` sample_rate self)
  ++ le_bytes 1 ENCODING_REAL
  ++ le_bytes 1 BIMODAL_COMPRESSION_FALSE
  ++ concat (map (fun _ => le_bytes 2 (2 * Z.min (n_samples self) 32767))
               (range (n_leads self)))
  ++ concat (map (encoded_serie self) (range (n_leads self))).

(** The samples that the export reads all fit a signed 16-bit value. *)
Definition samples_fit_int16 (self : ECGBasic) : Prop :=
  forall i j, 0 <= i < n_leads self ->
              0 <= j < Z.min (n_samples self) 32767 ->
              -32768 <= item (data self) i j <= 32767.

(** [self] with another case identifier. *)
Definition with_case (self : ECGBasic) (c : string) : ECGBasic :=
  {| data := data self;
     sample_bits := sample_bits self;
     sample_rate := sample_rate self;
     ampl_nanovolt := ampl_nanovolt self;
     timestamp := timestamp self;
     patient_name := patient_name self;
     patient_case := c;
     patient_sex := patient_sex self;
     patient_weight := patient_weight self;
     patient_age := patient_age self |}.

(** Two arrays hold the same recording: same shape, same items inside it. *)
Definition same_recording (d1 d2 : ndarray) : Prop :=
  shape0 d1 = shape0 d2 /\ shape1 d1 = shape1 d2 /\
  forall i j, 0 <= i < Z.of_N (shape0 d1) -> 0 <= j < Z.of_N (shape1 d1) ->
              item d1 i j = item d2 i j.

(** Same recording, same metadata, same configuration constants. *)
Definition same_input (e1 e2 : ECGBasic) : Prop :=
  same_recording (data e1) (data e2) /\
  sample_bits e1 = sample_bits e2 /\
  sample_rate e1 = sample_rate e2 /\
  ampl_nanovolt e1 = ampl_nanovolt e2 /\
  timestamp e1 = timestamp e2 /\
  patient_name e1 = patient_name e2 /\
  patient_case e1 = patient_case e2 /\
  patient_sex e1 = patient_sex e2 /\
  patient_weight e1 = patient_weight e2 /\
  patient_age e1 = patient_age e2.

End Derived.

(** ** A concrete [ecg_scp]

    Modelled from the spec: the module [ecg_scp] (constants and
    primitive encoders) is not among the sources. The specification
    gives the contracts of the encoders and leaves widths and codes to
    the EN 1064 standard; this instance fixes them so that the export
    can be evaluated on concrete recordings. *)

Definition ref_pack_section (sect_id : Z) (payload : bytes) : bytes :=
  let body := le_bytes 2 sect_id ++ le_bytes 4 (16 + len payload)
              ++ le_bytes 1 20 ++ le_bytes 1 20 ++ le_bytes 6 0 ++ payload in
  le_bytes 2 (crc_hqx body 65535) ++ body.

Definition scp_reference : ScpModule := {|
  SECTION_HEADER_LEN := 16;
  POINTER_FIELD_LEN := 10;
  SCPECG_HEADER_LEN := 6;
  LEAD_I := 1; LEAD_II := 2; LEAD_III := 61;
  LEAD_AVR := 62; LEAD_AVL := 63; LEAD_AVF := 64;
  LEAD_V1 := 3; LEAD_V2 := 4; LEAD_V3 := 5;
  LEAD_V4 := 6; LEAD_V5 := 7; LEAD_V6 := 8;
  SEX_MALE := 1; SEX_FEMALE := 2; SEX_UNKNOWN := 0;
  WEIGHT_UNSPECIFIED := 0; WEIGHT_KILOGRAM := 1;
  AGE_UNSPECIFIED := 0; AGE_YEARS := 1;
  TAG_PATIENT_ID := 2; TAG_ECG_SEQ_NUM := 31; TAG_PATIENT_LAST_NAME := 0;
  TAG_PATIENT_SEX := 8; TAG_PATIENT_WEIGHT := 7; TAG_PATIENT_AGE := 4;
  TAG_DATE_ACQ := 25; TAG_TIME_ACQ := 26; TAG_ACQ_DEV_ID := 14; TAG_EOF := 255;
  ALL_SIMULTANEOUS_READ := 4;
  ENCODING_REAL := 0;
  BIMODAL_COMPRESSION_FALSE := 0;
  make_pointer_field := fun sect_id length index =>
    le_bytes 2 sect_id ++ le_bytes 4 length ++ le_bytes 4 index;
  make_tag := fun tag value => le_bytes 1 tag ++ le_bytes 2 (len value) ++ value;
  make_asciiz := fun s => ascii_bytes s ++ le_bytes 1 0;
  make_3bytes_intval_unit := fun value unit => le_bytes 2 value ++ le_bytes 1 unit;
  make_date := fun t => le_bytes 2 (year t) ++ le_bytes 1 (month t) ++ le_bytes 1 (day t);
  make_time := fun t => le_bytes 1 (hour t) ++ le_bytes 1 (minute t) ++ le_bytes 1 (second t);
  make_machine_id := fun s => ascii_bytes s ++ le_bytes 1 0;
  pack_section := ref_pack_section
|}.

(** Sample recordings. *)
Definition ramp (n m : N) : ndarray :=
  {| shape0 := n; shape1 := m; item := fun i j => 100 * i + j - 3 |}.

Definition default_ecg (d : ndarray) : ECGBasic :=
  {| data := d;
     sample_bits := 16;
     sample_rate := 500;
     ampl_nanovolt := 5000;
     timestamp := {| year := 2022; month := 1; day := 1;
                     hour := 1; minute := 1; second := 1 |};
     patient_name := "anonymized";
     patient_case := "unknown_case";
     patient_sex := 0;
     patient_weight := 0;
     patient_age := 0 |}.

(** One lead of 2^32 samples. *)
Definition overlong : ECGBasic :=
  default_ecg {| shape0 := 1; shape1 := 4294967296; item := fun _ _ => 0 |}.


(** Two leads of 40000 samples; the samples from index 32767 on are
    not 16-bit values. *)
Definition long_take : ECGBasic :=
  default_ecg {| shape0 := 2; shape1 := 40000;
                 item := fun i j => if j <? 32767 then j - 16000 + i else 1000000 |}.

(** A recording of 13 leads. *)
Definition thirteen : ECGBasic := default_ecg (ramp 13 3).

(** [ramp 2 3] with other values outside its shape. *)
Definition ramp_padded : ndarray :=
  {| shape0 := 2; shape1 := 3;
     item := fun i j => if bool_decide (0 <= i < 2 /\ 0 <= j < 3)
                        then 100 * i + j - 3 else 77 |}.

Definition empty_fs : filesystem := {| files := ∅; locked := ∅ |}.

(** A file system that already holds a file at the target path. *)
Definition used_fs : filesystem :=
  {| files := {[ "out.scp"%string := ascii_bytes "old" ]}; locked := ∅ |}.

(** ** Contracts of the encoders and conditions of success *)

Section Conditions.
Context `{scp : ScpModule}.

(** A pointer field has the fixed width [POINTER_FIELD_LEN]. *)
Definition pointer_fields_have_length : Prop :=
  forall sect_id length index,
    len (make_pointer_field sect_id length index) = POINTER_FIELD_LEN.

(** [pack_section] puts [SECTION_HEADER_LEN] bytes before the payload. *)
Definition sections_have_header : Prop :=
  forall sect_id payload,
    len (pack_section sect_id payload) = SECTION_HEADER_LEN + len payload.

(** A pointer field and a tag are never empty. *)
Definition encoders_nonempty : Prop :=
  (forall sect_id length index, len (make_pointer_field sect_id length index) > 0) /\
  (forall tag value, len (make_tag tag value) > 0).

Definition sex_codes_are_bytes : Prop :=
  is_byte SEX_MALE /\ is_byte SEX_FEMALE /\ is_byte SEX_UNKNOWN.

(** The lead count is covered by the lead-order table and, when there
    is a lead at all, the sample count fits the four bytes of the last
    sample index. *)
Definition leads_fit (self : ECGBasic) : Prop :=
  n_leads self <= 12 /\ (n_leads self = 0 \/ n_samples self <= 4294967295).

(** The header of Section 6 can be packed: the sample rate divides
    1e6 and both 16-bit fields are in range. *)
Definition rhythm_header_fits (self : ECGBasic) : Prop :=
  sample_rate self <> 0 /\ Z.abs (sample_rate self) < 2 ^ 1024 /\
  0 <= ampl_nanovolt self <= 65535 /\
  0 <= 1000000 `quot` sample_rate self <= 65535.


(** Section 1 when the sex code is a byte. *)
Definition patient_data (self : ECGBasic) : bytes :=
  encode_fields (patient_fields self [byte_of_Z (sex_code self)]).

End Conditions.

(** Same shape, same metadata and configuration, and the same samples
    below the cap of 32767 per lead; the samples past the cap are free. *)
Definition same_encoded_input (e1 e2 : ECGBasic) : Prop :=
  shape0 (data e1) = shape0 (data e2) /\
  shape1 (data e1) = shape1 (data e2) /\
  (forall i j, 0 <= i < n_leads e1 -> 0 <= j < Z.min (n_samples e1) 32767 ->
               item (data e1) i j = item (data e2) i j) /\
  sample_rate e1 = sample_rate e2 /\
  ampl_nanovolt e1 = ampl_nanovolt e2 /\
  timestamp e1 = timestamp e2 /\
  patient_name e1 = patient_name e2 /\
  patient_case e1 = patient_case e2 /\
  patient_sex e1 = patient_sex e2 /\
  patient_weight e1 = patient_weight e2 /\
  patient_age e1 = patient_age e2.

(** [self] with another sample rate. *)
Definition with_rate (self : ECGBasic) (rate : Z) : ECGBasic :=
  {| data := data self;
     sample_bits := sample_bits self;
     sample_rate := rate;
     ampl_nanovolt := ampl_nanovolt self;
     timestamp := timestamp self;
     patient_name := patient_name self;
     patient_case := patient_case self;
     patient_sex := patient_sex self;
     patient_weight := patient_weight self;
     patient_age := patient_age self |}.

(** [self] with another weight and age. *)
Definition with_weight_age (self : ECGBasic) (w a : Z) : ECGBasic :=
  {| data := data self;
     sample_bits := sample_bits self;
     sample_rate := sample_rate self;
     ampl_nanovolt := ampl_nanovolt self;
     timestamp := timestamp self;
     patient_name := patient_name self;
     patient_case := patient_case self;
     patient_sex := patient_sex self;
     patient_weight := w;
     patient_age := a |}.

(** No lead at all, 2^33 samples declared, items that fit no field. *)
Definition no_leads : ECGBasic :=
  default_ecg {| shape0 := 0; shape1 := 8589934592;
                 item := fun _ _ => 1000000000 |}.

(** [long_take] with other values past the cap. *)
Definition long_take' : ECGBasic :=
  default_ecg {| shape0 := 2; shape1 := 40000;
                 item := fun i j => if j <? 32767 then j - 16000 + i else -5 |}.

(** A file system with a second file and a path that cannot be written. *)
Definition busy_fs : filesystem :=
  {| files := {[ "out.scp"%string := ascii_bytes "old";
                 "notes.txt"%string := ascii_bytes "keep" ]};
     locked := {[ "ro.scp"%string ]} |}.

(** * Properties *)

(** ** Bytes and packing *)

Lemma Z_of_byte_of_Z (z : Z) : Z_of_byte (byte_of_Z z) = Z.land z 255.
Proof.
  unfold Z_of_byte, byte_of_Z.
  assert (Hb : 0 <= Z.land z 255 < 256).
  { change 255 with (Z.ones 8). rewrite Z.land_ones by lia.
    apply Z.mod_pos_bound. lia. }
  destruct (Byte.of_N (Z.to_N (Z.land z 255))) as [b|] eqn:E.
  - apply Byte.to_of_N in E. simpl. rewrite E. lia.
  - apply Byte.of_N_None_iff in E. lia.
Qed.

Lemma Z_of_byte_range (b : byte) : 0 <= Z_of_byte b < 256.
Proof.
  unfold Z_of_byte. pose proof (Byte.to_N_bounded b). lia.
Qed.

Lemma length_le_bytes (n : nat) (z : Z) : length (le_bytes n z) = n.
Proof.
  revert z. induction n as [|n IH]; intros z; simpl; [reflexivity|].
  now rewrite IH.
Qed.

Lemma le_decode_le_bytes (n : nat) (z : Z) :
  le_decode (le_bytes n z) = z mod 2 ^ (8 * Z.of_nat n).
Proof.
  revert z. induction n as [|n IH]; intros z.
  - simpl. rewrite Z.mod_1_r. reflexivity.
  - cbn [le_bytes le_decode]. rewrite IH, Z_of_byte_of_Z.
    change 255 with (Z.ones 8). rewrite Z.land_ones by lia.
    rewrite Z.shiftr_div_pow2 by lia.
    replace (8 * Z.of_nat (S n)) with (8 + 8 * Z.of_nat n) by lia.
    rewrite Z.pow_add_r by lia.
    rewrite Z.rem_mul_r by lia. change (2 ^ 8) with 256. lia.
Qed.

Lemma pack_range_ok (lo hi : Z) (n : nat) (z : Z) :
  lo <= z <= hi -> pack_range lo hi n z = Ok (le_bytes n z).
Proof.
  intros H. unfold pack_range. now rewrite bool_decide_eq_true_2.
Qed.

Lemma pack_range_raise (lo hi : Z) (n : nat) (z : Z) :
  ~ (lo <= z <= hi) -> pack_range lo hi n z = Raise StructError.
Proof.
  intros H. unfold pack_range. now rewrite bool_decide_eq_false_2.
Qed.

Lemma pack_range_cases (lo hi : Z) (n : nat) (z : Z) :
  pack_range lo hi n z = Ok (le_bytes n z) \/
  pack_range lo hi n z = Raise StructError.
Proof.
  unfold pack_range. destruct (bool_decide (lo <= z <= hi)); auto.
Qed.

Lemma pack_range_inv (lo hi : Z) (n : nat) (z : Z) (b : bytes) :
  pack_range lo hi n z = Ok b -> lo <= z <= hi /\ b = le_bytes n z.
Proof.
  unfold pack_range. destruct (bool_decide (lo <= z <= hi)) eqn:E; [|discriminate].
  intros [= <-]. apply bool_decide_eq_true_1 in E. auto.
Qed.



(** ** The checksum

    The check values of the parameter sets that share this polynomial:
    0x31C3 from register 0 and 0x29B1 from register 0xFFFF. *)

Example crc_hqx_xmodem_check :
  crc_hqx (ascii_bytes "123456789") 0 = 12739.
Proof. vm_compute. reflexivity. Qed.

Example crc_hqx_ffff_check :
  crc_hqx (ascii_bytes "123456789") 65535 = 10673.
Proof. vm_compute. reflexivity. Qed.


Lemma land_65535_range (z : Z) : 0 <= Z.land z 65535 <= 65535.
Proof.
  pose proof (Z.land_ones z 16 ltac:(lia)) as E.
  change (Z.ones 16) with 65535 in E. rewrite E.
  pose proof (Z.mod_pos_bound z (2 ^ 16) ltac:(lia)). lia.
Qed.

Lemma crc_shift_range (crc : Z) : 0 <= crc_shift crc <= 65535.
Proof.
  unfold crc_shift. destruct (Z.testbit crc 15); apply land_65535_range.
Qed.

Lemma crc_update_range (crc : Z) (b : byte) : 0 <= crc_update crc b <= 65535.
Proof.
  unfold crc_update. cbn [Nat.iter]. apply crc_shift_range.
Qed.

Lemma crc_hqx_range (bs : bytes) (value : Z) : 0 <= crc_hqx bs value <= 65535.
Proof.
  unfold crc_hqx.
  assert (H : forall acc, 0 <= acc <= 65535 ->
            0 <= fold_left crc_update bs acc <= 65535).
  { induction bs as [|b bs IH]; intros acc Hacc; simpl; [exact Hacc|].
    apply IH, crc_update_range. }
  apply H, land_65535_range.
Qed.

(** ** Loops *)

Lemma for_each_app {S X} (xs ys : list X) (body : X -> S -> result S) (s : S) :
  for_each (xs ++ ys) body s = (s' ← for_each xs body s; for_each ys body s').
Proof.
  revert s. induction xs as [|x xs IH]; intros s; simpl; [reflexivity|].
  destruct (body x s) as [s'|e]; simpl; [apply IH|reflexivity].
Qed.

Lemma for_each_ext {S X} (xs : list X) (f g : X -> S -> result S) (s : S) :
  (forall x s', x ∈ xs -> f x s' = g x s') -> for_each xs f s = for_each xs g s.
Proof.
  revert s. induction xs as [|x xs IH]; intros s H; simpl; [reflexivity|].
  rewrite H by constructor.
  destruct (g x s) as [s'|e]; simpl; [|reflexivity].
  apply IH. intros y s'' Hy. apply H. now constructor.
Qed.

Lemma gather_ok {X} (f : X -> result bytes) (g : X -> bytes) (xs : list X) :
  (forall x, x ∈ xs -> f x = Ok (g x)) -> gather f xs = Ok (concat (map g xs)).
Proof.
  induction xs as [|x xs IH]; intros H; simpl; [reflexivity|].
  rewrite H by constructor. simpl.
  rewrite IH; [reflexivity|]. intros y Hy. apply H. now constructor.
Qed.

Lemma gather_inv {X} (f : X -> result bytes) (xs : list X) (r : bytes) :
  gather f xs = Ok r ->
  exists g, (forall x, x ∈ xs -> f x = Ok (g x)) /\ r = concat (map g xs).
Proof.
  revert r. induction xs as [|x xs IH]; intros r; simpl.
  - intros [= <-]. exists (fun _ => []). split; [|reflexivity].
    intros x Hx. inversion Hx.
  - destruct (f x) as [b|e] eqn:Ex; simpl; [|discriminate].
    destruct (gather f xs) as [r'|e] eqn:Er; simpl; [|discriminate].
    intros [= <-]. destruct (IH r' eq_refl) as (g & Hg & ->).
    exists (fun y => match f y with Ok c => c | Raise _ => [] end). split.
    + intros y Hy. apply elem_of_cons in Hy as [->|Hy].
      * now rewrite Ex.
      * now rewrite (Hg y Hy).
    + rewrite Ex. f_equal. f_equal. apply map_ext_in. intros y Hy.
      apply list_elem_of_In in Hy. now rewrite (Hg y Hy).
Qed.

Lemma bind_Ok {A B} (a : A) (f : A -> result B) : (Ok a ≫= f) = f a.
Proof. reflexivity. Qed.

Lemma bind_Raise {A B} (e : exn) (f : A -> result B) : (Raise e ≫= f) = Raise e.
Proof. reflexivity. Qed.

Lemma ret_Ok {A} (a : A) : mret a = Ok a.
Proof. reflexivity. Qed.

Lemma for_each_bytes {X} (f : X -> result bytes) (xs : list X) (acc : bytes) :
  for_each xs (fun x acc => b ← f x; mret (acc ++ b)) acc
  = (bs ← gather f xs; mret (acc ++ bs)).
Proof.
  revert acc. induction xs as [|x xs IH]; intros acc; simpl.
  - now rewrite app_nil_r.
  - destruct (f x) as [b|e]; simpl; [|reflexivity].
    rewrite IH. destruct (gather f xs) as [r|e]; simpl; [|reflexivity].
    now rewrite app_assoc.
Qed.

(** ** The section dictionary *)

Lemma getitem_insert (s : sections) (k : Z) (v : bytes) :
  getitem (<[k := v]> s) k = Ok v.
Proof. unfold getitem. now rewrite lookup_insert_eq. Qed.

Lemma getitem_insert_ne (s : sections) (k k' : Z) (v : bytes) :
  k ≠ k' -> getitem (<[k := v]> s) k' = getitem s k'.
Proof. intros H. unfold getitem. now rewrite lookup_insert_ne. Qed.

Lemma iadd_insert (s : sections) (k : Z) (v b : bytes) :
  iadd (<[k := v]> s) k b = Ok (<[k := v ++ b]> s).
Proof.
  unfold iadd. rewrite getitem_insert, bind_Ok, ret_Ok.
  now rewrite insert_insert_eq.
Qed.

(** A loop whose body appends one chunk to [s[k]] per element. *)
Lemma for_each_section {X} (k : Z) (f : X -> result bytes)
    (body : X -> sections -> result sections) (s0 : sections) (xs : list X) :
  (forall x v, body x (<[k := v]> s0) = (b ← f x; mret (<[k := v ++ b]> s0))) ->
  forall v, for_each xs body (<[k := v]> s0)
            = (bs ← gather f xs; mret (<[k := v ++ bs]> s0)).
Proof.
  intros Hbody. induction xs as [|x xs IH]; intros v; simpl.
  - now rewrite app_nil_r.
  - rewrite Hbody. destruct (f x) as [b|e]; simpl; [|reflexivity].
    rewrite IH. destruct (gather f xs) as [r|e]; simpl; [|reflexivity].
    now rewrite app_assoc.
Qed.

Lemma range_12 : range 12 = [0; 1; 2; 3; 4; 5; 6; 7; 8; 9; 10; 11].
Proof. reflexivity. Qed.

Section Payloads.
Context `{scp : ScpModule}.

Lemma empty_sections_lookup (k : Z) :
  0 <= k < 12 -> empty_sections !! k = Some [].
Proof.
  intros H.
  assert (Hk : k ∈ range 12) by (apply elem_of_seqZ; lia).
  rewrite range_12 in Hk.
  repeat (apply elem_of_cons in Hk as [->|Hk]; [reflexivity|]).
  inversion Hk.
Qed.

Lemma empty_sections_lookup_None (k : Z) :
  ~ (0 <= k < 12) -> empty_sections !! k = None.
Proof.
  intros H. unfold empty_sections. rewrite range_12. cbn [foldl].
  repeat (rewrite lookup_insert_ne by lia). apply lookup_empty.
Qed.

(** *** Section 0 *)

Lemma pointer_fields_insert0 (s : sections) (t : bytes) (ids : list Z) (index : Z) :
  0 ∉ ids -> pointer_fields (<[0 := t]> s) ids index = pointer_fields s ids index.
Proof.
  revert index. induction ids as [|i ids IH]; intros index H; simpl; [reflexivity|].
  apply not_elem_of_cons in H as [Hi H].
  rewrite lookup_total_insert_ne by congruence. now rewrite IH.
Qed.

Lemma pointer_loop (s : sections) (ids : list Z) (t : bytes) (index : Z) :
  0 ∉ ids -> (forall i, i ∈ ids -> is_Some (s !! i)) ->
  exists index',
    for_each ids pointer_step (<[0 := t]> s, index)
    = Ok (<[0 := t ++ pointer_fields s ids index]> s, index').
Proof.
  revert t index. induction ids as [|i ids IH]; intros t index H0 Hs.
  - exists index. simpl. now rewrite app_nil_r.
  - apply not_elem_of_cons in H0 as [Hi H0].
    destruct (Hs i ltac:(constructor)) as [p Hp].
    cbn [for_each pointer_step].
    rewrite getitem_insert_ne by congruence.
    unfold getitem at 1. rewrite Hp, bind_Ok, iadd_insert, bind_Ok, ret_Ok, bind_Ok.
    destruct (IH (t ++ make_pointer_field i (declared_length p) index)
                 (index + declared_length p) H0) as [index' E].
    { intros j Hj. apply Hs. now constructor. }
    exists index'. unfold declared_length in E. rewrite E.
    cbn [pointer_fields]. rewrite (lookup_total_correct _ _ _ Hp).
    unfold declared_length. now rewrite app_assoc.
Qed.

Lemma build_pointers_spec (s : sections) :
  (forall i, 1 <= i < 12 -> is_Some (s !! i)) ->
  build_pointers s = Ok (<[0 := pointer_table_for s]> s).
Proof.
  intros Hs. unfold build_pointers. cbv zeta.
  destruct (pointer_loop s (seqZ 1 11)
              (make_pointer_field 0 (SECTION_HEADER_LEN + POINTER_FIELD_LEN * 12)
                 (SCPECG_HEADER_LEN + 1))
              (SCPECG_HEADER_LEN + 1 + (SECTION_HEADER_LEN + POINTER_FIELD_LEN * 12)))
    as [index' E].
  - rewrite elem_of_seqZ. lia.
  - intros i Hi. apply Hs. apply elem_of_seqZ in Hi. lia.
  - rewrite E. reflexivity.
Qed.

Lemma pointer_fields_empty (ids : list Z) (index : Z) :
  (forall i, i ∈ ids -> 0 <= i < 12) ->
  pointer_fields empty_sections ids index
  = concat (map (fun sect_id => make_pointer_field sect_id 0 index) ids).
Proof.
  induction ids as [|i ids IH]; intros H; simpl; [reflexivity|].
  pose proof (empty_sections_lookup i (H i ltac:(constructor))) as Hp.
  apply lookup_total_correct in Hp. rewrite Hp.
  change (declared_length []) with 0. rewrite Z.add_0_r.
  rewrite IH; [reflexivity|]. intros j Hj. apply H. now constructor.
Qed.

Lemma pointer_table_for_empty :
  pointer_table_for empty_sections = empty_pointer_table.
Proof.
  unfold pointer_table_for, empty_pointer_table.
  rewrite pointer_fields_empty; [reflexivity|].
  intros i Hi. apply elem_of_seqZ in Hi. lia.
Qed.

Lemma build_pointers_empty :
  build_pointers empty_sections = Ok (<[0 := empty_pointer_table]> empty_sections).
Proof.
  rewrite build_pointers_spec.
  - now rewrite pointer_table_for_empty.
  - intros i Hi. rewrite empty_sections_lookup by lia. eauto.
Qed.

End Payloads.

(** Runs the dictionary updates and binds that are already decided. *)
Ltac run_dict :=
  repeat first [rewrite iadd_insert | rewrite bind_Ok | rewrite ret_Ok].

Section Builders.
Context `{scp : ScpModule}.

(** *** Section 1 *)

Lemma build_patient_spec (self : ECGBasic) (s : sections) :
  build_patient self s = (p ← patient_payload self; mret (<[1 := p]> s)).
Proof.
  unfold build_patient, patient_payload. cbv zeta.
  run_dict.
  destruct (pack_B (sex_code self)) as [sex|e]; [|reflexivity].
  run_dict.
  unfold encode_fields, patient_fields. cbn [map concat fst snd].
  rewrite app_nil_r, <- !app_assoc. reflexivity.
Qed.

(** *** Section 3 *)

Lemma lead_step_spec (self : ECGBasic) (i : Z) (s0 : sections) (v : bytes) :
  lead_step self i (<[3 := v]> s0)
  = (e ← lead_entry self i; mret (<[3 := v ++ e]> s0)).
Proof.
  unfold lead_step, lead_entry. cbv zeta.
  destruct (lead_lookup i) as [c|e]; [|reflexivity]. run_dict.
  destruct (pack_I 1) as [a|e]; [|reflexivity]. run_dict.
  destruct (pack_I (n_samples self)) as [b|e]; [|reflexivity]. run_dict.
  destruct (pack_B c) as [d|e]; [|reflexivity].
  run_dict. rewrite <- !app_assoc. reflexivity.
Qed.

Lemma build_leads_spec (self : ECGBasic) (s : sections) :
  build_leads self s = (p ← leads_payload self; mret (<[3 := p]> s)).
Proof.
  unfold build_leads, leads_payload. cbv zeta. fold (flag_byte_of (n_leads self)).
  destruct (pack_B (n_leads self)) as [b1|e]; [|reflexivity]. run_dict.
  destruct (pack_B (flag_byte_of (n_leads self))) as [b2|e]; [|reflexivity].
  run_dict.
  rewrite (for_each_section 3 (lead_entry self) (lead_step self) s).
  - destruct (gather (lead_entry self) (range (n_leads self))) as [es|e];
      [|reflexivity].
    run_dict. rewrite <- app_assoc. reflexivity.
  - intros i v. apply lead_step_spec.
Qed.

(** *** Section 6 *)

Lemma rhythm_step_spec (self : ECGBasic) (i : Z) (s0 : sections) (v : bytes) :
  rhythm_step self (capped_samples self) i (<[6 := v]> s0)
  = (b ← serie self i; mret (<[6 := v ++ b]> s0)).
Proof.
  unfold rhythm_step, serie.
  rewrite (for_each_ext _ (serie_step self i)
             (fun j acc => b ← pack_h (item (data self) i j); mret (acc ++ b)))
    by reflexivity.
  rewrite for_each_bytes.
  destruct (gather _ _) as [bs|e]; [|reflexivity].
  run_dict. reflexivity.
Qed.

Lemma build_rhythm_spec (self : ECGBasic) (s : sections) :
  build_rhythm self s = (p ← rhythm_payload self; mret (<[6 := p]> s)).
Proof.
  unfold build_rhythm, rhythm_payload. cbv zeta. fold (capped_samples self).
  destruct (int_1e6_div (sample_rate self)) as [interval|e]; [|reflexivity].
  run_dict.
  destruct (pack_H (ampl_nanovolt self)) as [a|e]; [|reflexivity]. run_dict.
  destruct (pack_H interval) as [b|e]; [|reflexivity]. run_dict.
  destruct (pack_B ENCODING_REAL) as [c|e]; [|reflexivity]. run_dict.
  destruct (pack_B BIMODAL_COMPRESSION_FALSE) as [d|e]; [|reflexivity]. run_dict.
  rewrite (for_each_section 6 (fun _ : Z => pack_H (capped_samples self * 2)) _ s)
    by (intros x v; destruct (pack_H _); [now run_dict|reflexivity]).
  destruct (gather _ _) as [counts|e]; [|reflexivity]. run_dict.
  rewrite (for_each_section 6 (serie self) _ s) by (intros; apply rhythm_step_spec).
  destruct (gather (serie self) _) as [series|e]; [|reflexivity].
  run_dict. rewrite <- !app_assoc. reflexivity.
Qed.

(** *** The dictionary at line 146 *)

Lemma build_sections_spec (self : ECGBasic) :
  build_sections self
  = (p1 ← patient_payload self;
     p3 ← leads_payload self;
     p6 ← rhythm_payload self;
     mret (final_sections p1 p3 p6)).
Proof.
  unfold build_sections. rewrite build_pointers_empty, bind_Ok.
  rewrite build_patient_spec.
  destruct (patient_payload self) as [p1|e]; [|reflexivity]. run_dict.
  rewrite build_leads_spec.
  destruct (leads_payload self) as [p3|e]; [|reflexivity]. run_dict.
  rewrite build_rhythm_spec. reflexivity.
Qed.

End Builders.

(** ** Record assembly *)

Section Assembly.
Context `{scp : ScpModule}.

Lemma size_step_lookup (s : sections) (i : Z) (p : bytes) (acc : Z) :
  s !! i = Some p ->
  size_step s i acc
  = Ok (if bool_decide (len p > 0) then acc + (SECTION_HEADER_LEN + len p) else acc).
Proof. intros Hp. unfold size_step, getitem. now rewrite Hp. Qed.

Lemma record_step_lookup (s : sections) (i : Z) (p : bytes) (acc : bytes) :
  s !! i = Some p ->
  record_step s i acc
  = Ok (if bool_decide (len p > 0) then acc ++ pack_section i p else acc).
Proof. intros Hp. unfold record_step, getitem. now rewrite Hp. Qed.

Lemma size_loop (s : sections) (ids : list Z) (acc : Z) :
  (forall i, i ∈ ids -> is_Some (s !! i)) ->
  for_each ids (size_step s) acc
  = Ok (acc + sumZ (map (fun sect_id => SECTION_HEADER_LEN + len (s !!! sect_id))
                      (filter (populated s) ids))).
Proof.
  revert acc. induction ids as [|i ids IH]; intros acc Hs.
  - simpl. now rewrite Z.add_0_r.
  - destruct (Hs i ltac:(constructor)) as [p Hp].
    pose proof (lookup_total_correct _ _ _ Hp) as Hp'.
    cbn [for_each]. rewrite (size_step_lookup _ _ _ _ Hp). run_dict.
    rewrite IH by (intros j Hj; apply Hs; now constructor).
    destruct (decide (populated s i)) as [Hlen|Hlen].
    + rewrite filter_cons_True by exact Hlen.
      unfold populated in Hlen. rewrite Hp' in Hlen.
      rewrite bool_decide_eq_true_2 by exact Hlen. cbn [map sumZ foldr].
      rewrite Hp'. f_equal. unfold sumZ. lia.
    + rewrite filter_cons_False by exact Hlen.
      unfold populated in Hlen. rewrite Hp' in Hlen.
      rewrite bool_decide_eq_false_2 by exact Hlen. reflexivity.
Qed.

Lemma record_loop (s : sections) (ids : list Z) (acc : bytes) :
  (forall i, i ∈ ids -> is_Some (s !! i)) ->
  for_each ids (record_step s) acc
  = Ok (acc ++ concat (map (fun sect_id => pack_section sect_id (s !!! sect_id))
                         (filter (populated s) ids))).
Proof.
  revert acc. induction ids as [|i ids IH]; intros acc Hs.
  - simpl. now rewrite app_nil_r.
  - destruct (Hs i ltac:(constructor)) as [p Hp].
    pose proof (lookup_total_correct _ _ _ Hp) as Hp'.
    cbn [for_each]. rewrite (record_step_lookup _ _ _ _ Hp). run_dict.
    rewrite IH by (intros j Hj; apply Hs; now constructor).
    destruct (decide (populated s i)) as [Hlen|Hlen].
    + rewrite filter_cons_True by exact Hlen.
      unfold populated in Hlen. rewrite Hp' in Hlen.
      rewrite bool_decide_eq_true_2 by exact Hlen. cbn [map concat].
      rewrite Hp', <- app_assoc. reflexivity.
    + rewrite filter_cons_False by exact Hlen.
      unfold populated in Hlen. rewrite Hp' in Hlen.
      rewrite bool_decide_eq_false_2 by exact Hlen. reflexivity.
Qed.

Lemma final_sections_lookup (p1 p3 p6 : bytes) (k : Z) :
  final_sections p1 p3 p6 !! k
  = if decide (k = 6) then Some p6
    else if decide (k = 3) then Some p3
    else if decide (k = 1) then Some p1
    else if decide (k = 0) then Some empty_pointer_table
    else if decide (0 <= k < 12) then Some [] else None.
Proof.
  unfold final_sections.
  do 4 (case_decide; [subst k; repeat (rewrite lookup_insert_ne by lia);
                      apply lookup_insert_eq|]).
  repeat (rewrite lookup_insert_ne by lia).
  case_decide.
  - now apply empty_sections_lookup.
  - now apply empty_sections_lookup_None.
Qed.

Lemma final_sections_is_Some (p1 p3 p6 : bytes) (k : Z) :
  0 <= k < 12 -> is_Some (final_sections p1 p3 p6 !! k).
Proof.
  intros H. rewrite final_sections_lookup. repeat case_decide; eauto. lia.
Qed.

Lemma final_sections_unpopulated (p1 p3 p6 : bytes) (k : Z) :
  k ∈ [2; 4; 5; 7; 8; 9; 10; 11] -> ~ populated (final_sections p1 p3 p6) k.
Proof.
  intros Hk. unfold populated.
  assert (E : final_sections p1 p3 p6 !! k = Some []).
  { rewrite final_sections_lookup.
    repeat (apply elem_of_cons in Hk as [->|Hk]; [reflexivity|]). inversion Hk. }
  rewrite (lookup_total_correct _ _ _ E). unfold len. simpl. lia.
Qed.

(** Only ids 0, 1, 3 and 6 can be populated, so the tuple of line 151
    visits every populated section. *)
Lemma present_assembled (p1 p3 p6 : bytes) :
  present (final_sections p1 p3 p6)
  = filter (populated (final_sections p1 p3 p6)) assembled.
Proof.
  unfold present, assembled. rewrite range_12.
  pose proof (final_sections_unpopulated p1 p3 p6) as Hun.
  repeat first
    [ rewrite (filter_cons_False _ 2) by (apply Hun; set_solver)
    | rewrite (filter_cons_False _ 4) by (apply Hun; set_solver)
    | rewrite (filter_cons_False _ 5) by (apply Hun; set_solver)
    | rewrite (filter_cons_False _ 7) by (apply Hun; set_solver)
    | rewrite (filter_cons_False _ 8) by (apply Hun; set_solver)
    | rewrite (filter_cons_False _ 9) by (apply Hun; set_solver)
    | rewrite (filter_cons_False _ 10) by (apply Hun; set_solver)
    | rewrite (filter_cons_False _ 11) by (apply Hun; set_solver)
    | rewrite (filter_cons _ 0) | rewrite (filter_cons _ 1)
    | rewrite (filter_cons _ 3) | rewrite (filter_cons _ 6) ].
  repeat case_decide; reflexivity.
Qed.

Lemma build_record_final (p1 p3 p6 : bytes) :
  build_record (final_sections p1 p3 p6)
  = (b ← pack_I (record_size (final_sections p1 p3 p6));
     mret (b ++ record_blocks (final_sections p1 p3 p6))).
Proof.
  assert (Hs : forall i, i ∈ assembled ->
                 is_Some (final_sections p1 p3 p6 !! i)).
  { intros i Hi. apply final_sections_is_Some. unfold assembled in Hi.
    repeat (apply elem_of_cons in Hi as [->|Hi]; [lia|]). inversion Hi. }
  unfold build_record. rewrite size_loop by exact Hs. run_dict.
  unfold record_size, record_blocks. rewrite present_assembled.
  destruct (pack_I _) as [b|e]; [|reflexivity]. run_dict.
  now rewrite record_loop by exact Hs.
Qed.

(** The file bytes in closed form. *)
Lemma build_file_spec (self : ECGBasic) :
  build_file self
  = (p1 ← patient_payload self;
     p3 ← leads_payload self;
     p6 ← rhythm_payload self;
     let s := final_sections p1 p3 p6 in
     b ← pack_I (record_size s);
     let scp_ecg := b ++ record_blocks s in
     mret (le_bytes 2 (crc_hqx scp_ecg 65535) ++ scp_ecg)).
Proof.
  unfold build_file. rewrite build_sections_spec.
  destruct (patient_payload self) as [p1|e]; [|reflexivity]. run_dict.
  destruct (leads_payload self) as [p3|e]; [|reflexivity]. run_dict.
  destruct (rhythm_payload self) as [p6|e]; [|reflexivity]. run_dict.
  rewrite build_record_final. cbv zeta.
  destruct (pack_I _) as [b|e]; [|reflexivity]. run_dict.
  unfold pack_H. rewrite pack_range_ok by apply crc_hqx_range. reflexivity.
Qed.

End Assembly.

(** ** The payloads when nothing raises *)

Lemma lor_byte (a b : Z) : 0 <= a <= 255 -> 0 <= b <= 255 -> 0 <= Z.lor a b <= 255.
Proof.
  intros Ha Hb.
  assert (Hnn : 0 <= Z.lor a b) by (apply Z.lor_nonneg; lia).
  split; [exact Hnn|].
  destruct (Z.eq_dec (Z.lor a b) 0) as [E|E]; [lia|].
  assert (Hlt : Z.lor a b < 2 ^ 8); [|change (2 ^ 8) with 256 in Hlt; lia].
  apply Z.log2_lt_pow2; [lia|].
  rewrite Z.log2_lor by lia.
  assert (La : Z.log2 a < 8).
  { destruct (Z.eq_dec a 0) as [->|]; [simpl; lia|]. apply Z.log2_lt_pow2; lia. }
  assert (Lb : Z.log2 b < 8).
  { destruct (Z.eq_dec b 0) as [->|]; [simpl; lia|]. apply Z.log2_lt_pow2; lia. }
  lia.
Qed.

Lemma gather_ext {X} (f g : X -> result bytes) (xs : list X) :
  (forall x, x ∈ xs -> f x = g x) -> gather f xs = gather g xs.
Proof.
  induction xs as [|x xs IH]; intros H; simpl; [reflexivity|].
  rewrite H by constructor. rewrite IH; [reflexivity|].
  intros y Hy. apply H. now constructor.
Qed.

(** The first failing element decides the exception of the whole loop. *)
Lemma gather_raise_at {X} (P : exn -> Prop) (f : X -> result bytes)
    (pre post : list X) (x : X) (e0 : exn) :
  (forall y e, y ∈ pre -> f y = Raise e -> P e) ->
  f x = Raise e0 -> P e0 ->
  exists e, gather f (pre ++ x :: post) = Raise e /\ P e.
Proof.
  intros Hpre Hx HP. induction pre as [|y pre IH]; simpl.
  - rewrite Hx. eauto.
  - destruct (f y) as [b|e] eqn:Ey; simpl.
    + destruct IH as (e & -> & He).
      { intros z e Hz. apply Hpre. now constructor. }
      eauto.
    + exists e. split; [reflexivity|]. apply (Hpre y); [constructor|exact Ey].
Qed.

Section PayloadsOk.
Context `{scp : ScpModule}.

Lemma sex_code_is_byte (self : ECGBasic) :
  is_byte SEX_MALE -> is_byte SEX_FEMALE -> is_byte SEX_UNKNOWN ->
  is_byte (sex_code self).
Proof.
  intros Hm Hf Hu. unfold sex_code. repeat case_bool_decide; assumption.
Qed.

Lemma patient_payload_ok (self : ECGBasic) :
  is_byte (sex_code self) ->
  patient_payload self
  = Ok (encode_fields (patient_fields self [byte_of_Z (sex_code self)])).
Proof.
  intros H. unfold patient_payload, pack_B. now rewrite pack_range_ok by exact H.
Qed.

Lemma lead_lookup_canonical (i : Z) :
  0 <= i < 12 -> lead_lookup i = Ok (canonical_lead_codes !!! Z.to_nat i).
Proof.
  intros H.
  assert (Hi : i ∈ range 12) by (apply elem_of_seqZ; lia).
  rewrite range_12 in Hi.
  repeat (apply elem_of_cons in Hi as [->|Hi]; [reflexivity|]).
  inversion Hi.
Qed.

Lemma lead_lookup_12 : lead_lookup 12 = Raise (KeyError 12).
Proof. reflexivity. Qed.

Lemma canonical_lookup_is_byte (i : Z) :
  lead_codes_are_bytes -> 0 <= i < 12 ->
  is_byte (canonical_lead_codes !!! Z.to_nat i).
Proof.
  intros Hc Hi. unfold lead_codes_are_bytes in Hc.
  rewrite Forall_lookup in Hc.
  destruct (canonical_lead_codes !! Z.to_nat i) as [c|] eqn:E.
  - rewrite (list_lookup_total_correct _ _ _ E). exact (Hc _ _ E).
  - apply lookup_ge_None in E. simpl in E. lia.
Qed.

Lemma canonical_take (n : Z) :
  0 <= n <= 12 ->
  map (fun i => canonical_lead_codes !!! Z.to_nat i) (range n)
  = take (Z.to_nat n) canonical_lead_codes.
Proof.
  intros H.
  assert (Hn : n ∈ seqZ 0 13) by (apply elem_of_seqZ; lia).
  change (seqZ 0 13) with [0; 1; 2; 3; 4; 5; 6; 7; 8; 9; 10; 11; 12] in Hn.
  repeat (apply elem_of_cons in Hn as [->|Hn]; [reflexivity|]).
  inversion Hn.
Qed.

Lemma leads_payload_ok (self : ECGBasic) :
  is_byte ALL_SIMULTANEOUS_READ -> lead_codes_are_bytes ->
  n_leads self <= 12 -> n_samples self <= 4294967295 ->
  leads_payload self = Ok (lead_definition self).
Proof.
  intros Ha Hc Hl Hs.
  assert (Hl0 : 0 <= n_leads self) by (unfold n_leads; lia).
  assert (Hs0 : 0 <= n_samples self) by (unfold n_samples; lia).
  unfold leads_payload, lead_definition, pack_B.
  rewrite (pack_range_ok 0 255 1 (n_leads self)) by lia. run_dict.
  unfold flag_byte_of. rewrite Z.lor_0_l.
  rewrite (pack_range_ok 0 255 1 (Z.lor _ _)).
  2:{ apply lor_byte; [exact Ha|].
      rewrite Z.shiftl_mul_pow2 by lia. change (2 ^ 3) with 8. lia. }
  run_dict.
  rewrite (gather_ok _ (fun i => lead_record self (canonical_lead_codes !!! Z.to_nat i))).
  - run_dict. do 4 f_equal.
    rewrite <- (canonical_take (n_leads self)) by lia.
    now rewrite map_map.
  - intros i Hi. apply elem_of_seqZ in Hi.
    unfold lead_entry. rewrite lead_lookup_canonical by lia. run_dict.
    unfold pack_I, pack_B. rewrite !pack_range_ok; try lia.
    + reflexivity.
    + apply canonical_lookup_is_byte; [exact Hc|lia].
Qed.

Lemma max_samples_value : max_samples = 32767.
Proof. reflexivity. Qed.




Lemma build_sections_inv (self : ECGBasic) (s : sections) :
  build_sections self = Ok s ->
  exists p1 p3 p6,
    patient_payload self = Ok p1 /\ leads_payload self = Ok p3 /\
    rhythm_payload self = Ok p6 /\ s = final_sections p1 p3 p6.
Proof.
  rewrite build_sections_spec.
  destruct (patient_payload self) as [p1|e]; [|discriminate].
  destruct (leads_payload self) as [p3|e]; [|discriminate].
  destruct (rhythm_payload self) as [p6|e]; [|discriminate].
  intros [= <-]. eauto 10.
Qed.

(** The pointer table never sees the payloads. *)
Lemma pointer_table_ignores_payloads (self : ECGBasic) (s : sections) :
  build_sections self = Ok s -> s !! 0 = Some empty_pointer_table.
Proof.
  intros H. apply build_sections_inv in H as (p1 & p3 & p6 & _ & _ & _ & ->).
  now rewrite final_sections_lookup.
Qed.

End PayloadsOk.

(** * The claims *)

(** ** Construction *)

Lemma init_with_data (d : ndarray) : init (Some d) = Ok (default_ecg d).
Proof. reflexivity. Qed.

(** C8: constructing [ECGBasic] with no data argument never yields a
    default all-zero recording: the default-array expression reads
    [n_leads] through the [data] attribute, which is not assigned yet,
    and the constructor raises [AttributeError]. *)
Theorem C8_init_without_data_raises :
  init None = Raise (AttributeError "data").
Proof.
  unfold init. cbv zeta.
  unfold n_leads_prop, getattr_data. reflexivity.
Qed.

(** ** Section 1 *)

(** C9: the byte under the sex tag of Section 1 is the male code when
    [patient_sex] is 1, the female code when it is 0 and the unknown
    code for every other value; the three codes being byte values, this
    holds for every instance. *)
Theorem C9_sex_byte `{scp : ScpModule} (self : ECGBasic) (s : sections) :
  is_byte SEX_MALE -> is_byte SEX_FEMALE -> is_byte SEX_UNKNOWN ->
  exists code,
    build_patient self s
    = Ok (<[1 := encode_fields (patient_fields self [byte_of_Z code])]> s) /\
    patient_fields self [byte_of_Z code] !! 3%nat
    = Some (TAG_PATIENT_SEX, [byte_of_Z code]) /\
    (patient_sex self = 1 -> code = SEX_MALE) /\
    (patient_sex self = 0 -> code = SEX_FEMALE) /\
    (patient_sex self <> 1 -> patient_sex self <> 0 -> code = SEX_UNKNOWN).
Proof.
  intros Hm Hf Hu. exists (sex_code self).
  split; [|split; [reflexivity|]].
  - rewrite build_patient_spec, patient_payload_ok by now apply sex_code_is_byte.
    reflexivity.
  - unfold sex_code. repeat split.
    + intros E. now rewrite bool_decide_eq_true_2.
    + intros E. rewrite bool_decide_eq_false_2 by lia.
      now rewrite bool_decide_eq_true_2.
    + intros E1 E0. now rewrite !bool_decide_eq_false_2.
Qed.

Lemma C9_sex_byte_witness :
  exists code,
    @build_patient scp_reference (default_ecg (ramp 1 1)) ∅
    = Ok (<[1 := @encode_fields scp_reference
                   (@patient_fields scp_reference (default_ecg (ramp 1 1))
                      [byte_of_Z code])]> ∅) /\
    @patient_fields scp_reference (default_ecg (ramp 1 1)) [byte_of_Z code] !! 3%nat
    = Some (8, [byte_of_Z code]) /\
    (0 = 1 -> code = 1) /\ (0 = 0 -> code = 2) /\ (0 <> 1 -> 0 <> 0 -> code = 0).
Proof.
  apply (@C9_sex_byte scp_reference (default_ecg (ramp 1 1)) ∅);
    unfold is_byte; simpl; lia.
Defined.

(** C10: the patient-identifier tag and the patient-last-name tag of
    Section 1 both carry the null-terminated patient name, and the case
    identifier is carried by the ECG sequence-number tag only: no other
    field changes when the case identifier does. *)
Theorem C10_name_and_case_tags `{scp : ScpModule} (self : ECGBasic) (s : sections) :
  is_byte SEX_MALE -> is_byte SEX_FEMALE -> is_byte SEX_UNKNOWN ->
  exists sex,
    build_patient self s = Ok (<[1 := encode_fields (patient_fields self sex)]> s) /\
    patient_fields self sex !! 0%nat
    = Some (TAG_PATIENT_ID, make_asciiz (patient_name self)) /\
    patient_fields self sex !! 2%nat
    = Some (TAG_PATIENT_LAST_NAME, make_asciiz (patient_name self)) /\
    patient_fields self sex !! 1%nat
    = Some (TAG_ECG_SEQ_NUM, make_asciiz (patient_case self)) /\
    forall c : string,
      build_patient (with_case self c) s
      = Ok (<[1 := encode_fields (patient_fields (with_case self c) sex)]> s) /\
      forall i : nat, i <> 1%nat ->
        patient_fields (with_case self c) sex !! i = patient_fields self sex !! i.
Proof.
  intros Hm Hf Hu. exists [byte_of_Z (sex_code self)].
  split; [|split; [reflexivity|split; [reflexivity|split; [reflexivity|]]]].
  - rewrite build_patient_spec, patient_payload_ok by now apply sex_code_is_byte.
    reflexivity.
  - intros c. split.
    + rewrite build_patient_spec, patient_payload_ok by now apply sex_code_is_byte.
      reflexivity.
    + intros i Hi. destruct i as [|[|i]]; [reflexivity|congruence|reflexivity].
Qed.

Lemma C10_name_and_case_tags_witness :
  exists sex,
    @build_patient scp_reference (default_ecg (ramp 1 1)) ∅
    = Ok (<[1 := @encode_fields scp_reference
                   (@patient_fields scp_reference (default_ecg (ramp 1 1)) sex)]> ∅) /\
    @patient_fields scp_reference (default_ecg (ramp 1 1)) sex !! 0%nat
    = Some (2, ascii_bytes "anonymized" ++ le_bytes 1 0) /\
    @patient_fields scp_reference (default_ecg (ramp 1 1)) sex !! 2%nat
    = Some (0, ascii_bytes "anonymized" ++ le_bytes 1 0) /\
    @patient_fields scp_reference (default_ecg (ramp 1 1)) sex !! 1%nat
    = Some (31, ascii_bytes "unknown_case" ++ le_bytes 1 0) /\
    forall c : string,
      @build_patient scp_reference (with_case (default_ecg (ramp 1 1)) c) ∅
      = Ok (<[1 := @encode_fields scp_reference
                     (@patient_fields scp_reference
                        (with_case (default_ecg (ramp 1 1)) c) sex)]> ∅) /\
      forall i : nat, i <> 1%nat ->
        @patient_fields scp_reference (with_case (default_ecg (ramp 1 1)) c) sex !! i
        = @patient_fields scp_reference (default_ecg (ramp 1 1)) sex !! i.
Proof.
  apply (@C10_name_and_case_tags scp_reference (default_ecg (ramp 1 1)) ∅);
    unfold is_byte; simpl; lia.
Defined.

(** ** Section 0 *)

(** C1: the pointer table is built at lines 73-83, before any payload
    exists, so the export of a one-lead, one-sample recording writes
    length 0 for Sections 1, 3 and 6 although they hold 95, 11 and 10
    bytes; the table that describes the final payloads differs from
    the one written. *)
Theorem C1_pointer_table_precedes_payloads :
  exists s,
    @build_sections scp_reference (default_ecg (ramp 1 1)) = Ok s /\
    s !! 0 = Some (@empty_pointer_table scp_reference) /\
    (len (s !!! 1) = 95 /\ len (s !!! 3) = 11 /\ len (s !!! 6) = 10) /\
    take 10 (drop 10 (s !!! 0)) = @make_pointer_field scp_reference 1 0 143 /\
    take 10 (drop 10 (@pointer_table_for scp_reference s))
    = @make_pointer_field scp_reference 1 (16 + 95) 143 /\
    s !!! 0 <> @pointer_table_for scp_reference s.
Proof.
  eexists. split; [vm_compute; reflexivity|].
  split; [vm_compute; reflexivity|].
  split; [repeat split; vm_compute; reflexivity|].
  split; [vm_compute; reflexivity|].
  split; [vm_compute; reflexivity|].
  intros E. vm_compute in E. discriminate E.
Qed.

(** ** Section 3 *)

Lemma length_lead_records `{scp : ScpModule} (self : ECGBasic) (codes : list Z) :
  length (concat (map (lead_record self) codes)) = (9 * length codes)%nat.
Proof.
  induction codes as [|c codes IH]; [reflexivity|].
  cbn [map concat]. rewrite length_app, IH. unfold lead_record.
  rewrite !length_app, !length_le_bytes. simpl. lia.
Qed.

(** C6 (as amended): for every recording with at most 12 leads and
    fewer than 2^32 samples, Section 3 is one byte of lead count, one
    flag byte (the all-simultaneous constant or-ed with the count
    shifted left by 3), then for each lead, in the order I, II, III,
    aVR, aVL, aVF, V1..V6, the first sample 1 and the last sample
    [n_samples] on four bytes each and the lead code on one byte. *)
Theorem C6_lead_definition `{scp : ScpModule} (self : ECGBasic) (s : sections) :
  is_byte ALL_SIMULTANEOUS_READ -> lead_codes_are_bytes ->
  n_leads self <= 12 -> n_samples self <= 4294967295 ->
  build_leads self s = Ok (<[3 := lead_definition self]> s) /\
  len (lead_definition self) = 2 + 9 * n_leads self /\
  le_decode (le_bytes 1 (n_leads self)) = n_leads self /\
  le_decode (le_bytes 4 1) = 1 /\
  le_decode (le_bytes 4 (n_samples self)) = n_samples self.
Proof.
  intros Ha Hc Hl Hs.
  assert (Hl0 : 0 <= n_leads self) by (unfold n_leads; lia).
  assert (Hs0 : 0 <= n_samples self) by (unfold n_samples; lia).
  split; [|split; [|split; [|split]]].
  - now rewrite build_leads_spec, leads_payload_ok.
  - unfold len, lead_definition.
    rewrite !length_app, !length_le_bytes, length_lead_records, length_take.
    simpl length. lia.
  - rewrite le_decode_le_bytes. apply Z.mod_small.
    change (2 ^ (8 * Z.of_nat 1)) with 256. lia.
  - reflexivity.
  - rewrite le_decode_le_bytes. apply Z.mod_small.
    change (2 ^ (8 * Z.of_nat 4)) with 4294967296. lia.
Qed.

Lemma C6_lead_definition_witness :
  @build_leads scp_reference (default_ecg (ramp 12 5000)) ∅
  = Ok (<[3 := @lead_definition scp_reference (default_ecg (ramp 12 5000))]> ∅) /\
  len (@lead_definition scp_reference (default_ecg (ramp 12 5000))) = 2 + 9 * 12 /\
  le_decode (le_bytes 1 12) = 12 /\
  le_decode (le_bytes 4 1) = 1 /\
  le_decode (le_bytes 4 5000) = 5000.
Proof.
  apply (@C6_lead_definition scp_reference (default_ecg (ramp 12 5000)) ∅).
  - unfold is_byte. simpl. lia.
  - unfold lead_codes_are_bytes, canonical_lead_codes, is_byte. simpl.
    repeat constructor; lia.
  - unfold n_leads. simpl. lia.
  - unfold n_samples. simpl. lia.
Defined.

(** Counterexample to C6 as stated, for every recording of at most 12
    leads: a sample count of 2^32 does not fit the four bytes of the last
    sample index: [struct.pack('<I', ...)] raises and no Section 3 is
    produced, although the recording has a single lead. *)
Lemma C6_counterexample_sample_count :
  n_leads overlong <= 12 /\
  (forall s, @build_leads scp_reference overlong s = Raise StructError) /\
  @export_scp scp_reference overlong "out.scp" empty_fs = (Raise StructError, empty_fs).
Proof.
  split; [vm_compute; discriminate|]. split.
  - intros s. rewrite build_leads_spec.
    assert (E : @leads_payload scp_reference overlong = Raise StructError)
      by (vm_compute; reflexivity).
    now rewrite E.
  - vm_compute. reflexivity.
Qed.

(** ** Section 6 *)


Lemma length_chunks {X} (f : X -> bytes) (w : nat) (l : list X) :
  (forall y, length (f y) = w) -> length (concat (map f l)) = (w * length l)%nat.
Proof.
  intros Hw. induction l as [|a l IH]; simpl; [lia|].
  rewrite length_app, IH, Hw. lia.
Qed.




(** ** Too many leads *)

Lemma lead_entry_raise `{scp : ScpModule} (self : ECGBasic) (i : Z) (e : exn) :
  0 <= i < 12 -> lead_entry self i = Raise e -> lead_failure e.
Proof.
  intros Hi. unfold lead_entry. rewrite lead_lookup_canonical by exact Hi. run_dict.
  unfold pack_I, pack_B.
  destruct (pack_range_cases 0 4294967295 4 1) as [-> | ->];
    [run_dict|intros [= <-]; now right].
  destruct (pack_range_cases 0 4294967295 4 (n_samples self)) as [-> | ->];
    [run_dict|intros [= <-]; now right].
  destruct (pack_range_cases 0 255 1 (canonical_lead_codes !!! Z.to_nat i))
    as [-> | ->]; [discriminate|intros [= <-]; now right].
Qed.

Lemma leads_payload_too_many `{scp : ScpModule} (self : ECGBasic) :
  12 < n_leads self -> exists e, leads_payload self = Raise e /\ lead_failure e.
Proof.
  intros Hn. unfold leads_payload, pack_B.
  destruct (pack_range_cases 0 255 1 (n_leads self)) as [-> | ->];
    [run_dict|exists StructError; split; [reflexivity|now right]].
  destruct (pack_range_cases 0 255 1 (flag_byte_of (n_leads self))) as [-> | ->];
    [run_dict|exists StructError; split; [reflexivity|now right]].
  assert (Er : range (n_leads self)
               = seqZ 0 12 ++ 12 :: seqZ 13 (n_leads self - 13)).
  { unfold range. replace (n_leads self) with (12 + (n_leads self - 12)) at 1 by lia.
    rewrite seqZ_app by lia. f_equal.
    rewrite seqZ_cons by lia. f_equal. f_equal. lia. }
  rewrite Er.
  destruct (gather_raise_at lead_failure (lead_entry self) (seqZ 0 12)
              (seqZ 13 (n_leads self - 13)) 12 (KeyError 12)) as (e & -> & He).
  - intros y e Hy. apply lead_entry_raise. apply elem_of_seqZ in Hy. lia.
  - unfold lead_entry. now rewrite lead_lookup_12.
  - now left.
  - exists e. split; [reflexivity|exact He].
Qed.

(** C3 (as amended): a recording of more than 12 leads is never
    exported. There is no check of the lead count: Section 0 is built,
    then Section 1, and the exception is raised while Section 3 is
    built, by the lead-order table that has no entry for index 12
    ([KeyError]) or by a lead count or flag byte that does not fit one
    byte ([struct.error]). No byte stream is produced and the file
    system is left as it was. *)
Theorem C3_too_many_leads_fails `{scp : ScpModule}
    (self : ECGBasic) (filename : string) (fs : filesystem) :
  12 < n_leads self ->
  build_pointers empty_sections = Ok (<[0 := empty_pointer_table]> empty_sections) /\
  exists e,
    build_file self = Raise e /\
    export_scp self filename fs = (Raise e, fs) /\
    lead_failure e.
Proof.
  intros Hn. split; [apply build_pointers_empty|].
  assert (Hb : exists e, build_file self = Raise e /\ lead_failure e).
  { rewrite build_file_spec. unfold patient_payload, pack_B.
    destruct (pack_range_cases 0 255 1 (sex_code self)) as [-> | ->];
      [run_dict|exists StructError; split; [reflexivity|now right]].
    destruct (leads_payload_too_many self Hn) as (e & -> & He).
    exists e. split; [reflexivity|exact He]. }
  destruct Hb as (e & Eb & He). exists e.
  split; [exact Eb|split; [|exact He]].
  unfold export_scp. now rewrite Eb.
Qed.

Lemma C3_too_many_leads_fails_witness :
  12 < n_leads thirteen /\
  @build_pointers scp_reference empty_sections
  = Ok (<[0 := @empty_pointer_table scp_reference]> empty_sections) /\
  exists e,
    @build_file scp_reference thirteen = Raise e /\
    @export_scp scp_reference thirteen "out.scp" used_fs = (Raise e, used_fs) /\
    lead_failure e.
Proof.
  split.
  - unfold n_leads. simpl. lia.
  - apply (@C3_too_many_leads_fails scp_reference thirteen "out.scp" used_fs).
    unfold n_leads. simpl. lia.
Defined.

(** Counterexample to C3 as stated, failure before any bytes are
    built: with 13 leads the 120 bytes of Section 0 and the 95 bytes of
    Section 1 are built first, and only then does the Section 3 loop
    raise, with a [KeyError]. *)
Lemma C3_counterexample_bytes_built_first :
  12 < n_leads thirteen /\
  exists s0 s1,
    @build_pointers scp_reference empty_sections = Ok s0 /\
    @build_patient scp_reference thirteen s0 = Ok s1 /\
    len (s1 !!! 0) = 120 /\ len (s1 !!! 1) = 95 /\
    @build_leads scp_reference thirteen s1 = Raise (KeyError 12).
Proof.
  split; [unfold n_leads; simpl; lia|].
  eexists. eexists.
  split; [vm_compute; reflexivity|].
  split; [vm_compute; reflexivity|].
  repeat split; vm_compute; reflexivity.
Qed.

Example thirteen_leads_KeyError :
  @export_scp scp_reference thirteen "out.scp" used_fs = (Raise (KeyError 12), used_fs).
Proof. vm_compute. reflexivity. Qed.

(** ** The record and the file *)

Lemma present_subset `{scp : ScpModule} (p1 p3 p6 : bytes) (k : Z) :
  k ∈ present (final_sections p1 p3 p6) -> k ∈ [0; 1; 3; 6].
Proof.
  rewrite present_assembled. intros H.
  apply list_elem_of_filter in H as [Hp H]. unfold assembled in H.
  apply elem_of_cons in H as [->|H]; [repeat constructor|].
  apply elem_of_cons in H as [->|H]; [repeat constructor|].
  apply elem_of_cons in H as [->|H].
  { exfalso. apply (final_sections_unpopulated p1 p3 p6 2); [repeat constructor|exact Hp]. }
  apply elem_of_cons in H as [->|H]; [repeat constructor|].
  apply elem_of_cons in H as [->|H]; [repeat constructor|].
  inversion H.
Qed.

Lemma record_layout `{scp : ScpModule}
    (self : ECGBasic) (s : sections) (scp_ecg : bytes) :
  build_sections self = Ok s -> build_record s = Ok scp_ecg ->
  scp_ecg = le_bytes 4 (record_size s) ++ record_blocks s /\
  0 <= record_size s <= 4294967295.
Proof.
  intros Hs Hr.
  apply build_sections_inv in Hs as (p1 & p3 & p6 & _ & _ & _ & ->).
  rewrite build_record_final in Hr. unfold pack_I in Hr.
  destruct (pack_range 0 4294967295 4 _) as [b|e] eqn:Eb; [|discriminate].
  apply pack_range_inv in Eb as [Hsize ->].
  rewrite bind_Ok, ret_Ok in Hr. injection Hr as <-.
  split; [reflexivity|exact Hsize].
Qed.

(** C5: the record is the 4-byte little-endian size, which is the
    fixed header length plus, for each section with a nonzero payload,
    the section header length plus the payload length, followed by
    those sections in ascending id order, each wrapped by
    [pack_section]; a section with an empty payload contributes no
    block. *)
Theorem C5_record_assembly `{scp : ScpModule}
    (self : ECGBasic) (s : sections) (scp_ecg : bytes) :
  build_sections self = Ok s -> build_record s = Ok scp_ecg ->
  scp_ecg = le_bytes 4 (record_size s) ++ record_blocks s /\
  le_decode (take 4 scp_ecg) = record_size s /\
  present s `sublist_of` range 12 /\
  (forall k, k ∈ present s <-> 0 <= k < 12 /\ len (s !!! k) > 0) /\
  (forall k, k ∈ present s -> k ∈ [0; 1; 3; 6]).
Proof.
  intros Hs Hr.
  destruct (record_layout self s scp_ecg Hs Hr) as [-> Hsize].
  apply build_sections_inv in Hs as (p1 & p3 & p6 & _ & _ & _ & ->).
  split; [reflexivity|]. split; [|split; [|split]].
  - rewrite take_app_length' by now rewrite length_le_bytes.
    rewrite le_decode_le_bytes. apply Z.mod_small.
    change (2 ^ (8 * Z.of_nat 4)) with 4294967296. lia.
  - apply sublist_filter.
  - intros k. unfold present. rewrite list_elem_of_filter.
    unfold range. rewrite elem_of_seqZ. unfold populated. intuition lia.
  - apply present_subset.
Qed.

Lemma C5_record_assembly_witness :
  exists s scp_ecg,
    @build_sections scp_reference (default_ecg (ramp 2 3)) = Ok s /\
    @build_record scp_reference s = Ok scp_ecg /\
    scp_ecg = le_bytes 4 (@record_size scp_reference s)
              ++ @record_blocks scp_reference s /\
    le_decode (take 4 scp_ecg) = @record_size scp_reference s /\
    present s `sublist_of` range 12 /\
    (forall k, k ∈ present s <-> 0 <= k < 12 /\ len (s !!! k) > 0) /\
    (forall k, k ∈ present s -> k ∈ [0; 1; 3; 6]).
Proof.
  eexists. eexists.
  split; [vm_compute; reflexivity|].
  split; [vm_compute; reflexivity|].
  eapply (@C5_record_assembly scp_reference (default_ecg (ramp 2 3)));
    vm_compute; reflexivity.
Defined.

Example ramp_record_layout :
  exists s, @build_sections scp_reference (default_ecg (ramp 2 3)) = Ok s /\
            present s = [0; 1; 3; 6] /\ @record_size scp_reference s = 327.
Proof.
  eexists. split; [vm_compute; reflexivity|].
  split; vm_compute; reflexivity.
Qed.



(** ** Determinism *)

Lemma same_input_payloads `{scp : ScpModule} (e1 e2 : ECGBasic) :
  same_input e1 e2 ->
  patient_payload e1 = patient_payload e2 /\
  leads_payload e1 = leads_payload e2 /\
  rhythm_payload e1 = rhythm_payload e2.
Proof.
  intros ((H0 & H1 & Hitem) & _ & Hrate & Hampl & Hts & Hname & Hcase & Hsex & Hw & Ha).
  assert (Hl : n_leads e1 = n_leads e2) by (unfold n_leads; now rewrite H0).
  assert (Hs : n_samples e1 = n_samples e2) by (unfold n_samples; now rewrite H1).
  split; [|split].
  - unfold patient_payload, patient_fields, sex_code, weight_unit, age_unit.
    now rewrite Hname, Hcase, Hsex, Hw, Ha, Hts.
  - unfold leads_payload. rewrite Hl.
    rewrite (gather_ext (lead_entry e1) (lead_entry e2)); [reflexivity|].
    intros i _. unfold lead_entry. now rewrite Hs.
  - unfold rhythm_payload, capped_samples. rewrite Hrate, Hampl, Hl, Hs.
    rewrite (gather_ext (serie e1) (serie e2)); [reflexivity|].
    intros i Hi. apply elem_of_seqZ in Hi. unfold serie, capped_samples. rewrite Hs.
    apply gather_ext. intros j Hj. apply elem_of_seqZ in Hj.
    rewrite Hitem; [reflexivity| |].
    + unfold n_leads in Hl, Hi. lia.
    + unfold n_samples in Hs, Hj. lia.
Qed.

Lemma same_input_build_file `{scp : ScpModule} (e1 e2 : ECGBasic) :
  same_input e1 e2 -> build_file e1 = build_file e2.
Proof.
  intros H. apply same_input_payloads in H as (Hp & Hl & Hr).
  rewrite !build_file_spec. now rewrite Hp, Hl, Hr.
Qed.

Lemma export_scp_written `{scp : ScpModule}
    (self : ECGBasic) (filename : string) (fs fs' : filesystem) (r : string) :
  export_scp self filename fs = (Ok r, fs') ->
  exists content, build_file self = Ok content /\
                  files fs' !! filename = Some content /\ r = filename.
Proof.
  unfold export_scp. destruct (build_file self) as [content|e]; [|intros [=]].
  unfold open_wb. destruct (bool_decide (filename ∈ locked fs)); [intros [=]|].
  intros [= <- <-]. exists content. split; [reflexivity|]. split; [|reflexivity].
  unfold write. cbn [files]. now rewrite !lookup_insert_eq.
Qed.

(** C7: two exports of the same recording (same shape, same samples)
    with the same metadata and configuration constants compute the
    same byte stream or raise the same exception, and whenever both
    reach the sink the two files hold the same bytes, whatever the
    paths and the earlier contents of the file systems. *)
Theorem C7_export_deterministic `{scp : ScpModule} (e1 e2 : ECGBasic) :
  same_input e1 e2 ->
  build_file e1 = build_file e2 /\
  forall (f1 f2 r1 r2 : string) (fs1 fs2 fs1' fs2' : filesystem),
    export_scp e1 f1 fs1 = (Ok r1, fs1') ->
    export_scp e2 f2 fs2 = (Ok r2, fs2') ->
    is_Some (files fs1' !! f1) /\ files fs1' !! f1 = files fs2' !! f2.
Proof.
  intros H. pose proof (same_input_build_file e1 e2 H) as Eb.
  split; [exact Eb|].
  intros f1 f2 r1 r2 fs1 fs2 fs1' fs2' X1 X2.
  apply export_scp_written in X1 as (c1 & B1 & F1 & _).
  apply export_scp_written in X2 as (c2 & B2 & F2 & _).
  rewrite F1, F2. split; [eauto|].
  rewrite Eb, B2 in B1. now injection B1 as ->.
Qed.

Lemma C7_export_deterministic_witness :
  @build_file scp_reference (default_ecg (ramp 2 3))
  = @build_file scp_reference (default_ecg ramp_padded) /\
  forall (f1 f2 r1 r2 : string) (fs1 fs2 fs1' fs2' : filesystem),
    @export_scp scp_reference (default_ecg (ramp 2 3)) f1 fs1 = (Ok r1, fs1') ->
    @export_scp scp_reference (default_ecg ramp_padded) f2 fs2 = (Ok r2, fs2') ->
    is_Some (files fs1' !! f1) /\ files fs1' !! f1 = files fs2' !! f2.
Proof.
  apply (@C7_export_deterministic scp_reference
           (default_ecg (ramp 2 3)) (default_ecg ramp_padded)).
  unfold same_input, same_recording. simpl.
  repeat split; try reflexivity.
  intros i j Hi Hj. rewrite bool_decide_eq_true_2 by lia. reflexivity.
Defined.

Example export_twice :
  files (snd (@export_scp scp_reference (default_ecg (ramp 2 3)) "out.scp" used_fs))
    !! "out.scp"%string
  = files (snd (@export_scp scp_reference (default_ecg ramp_padded) "b.scp" empty_fs))
      !! "b.scp"%string.
Proof. vm_compute. reflexivity. Qed.

(** * Further properties of the export *)

(** ** The lead-order table *)

Lemma lead_lookup_outside `{scp : ScpModule} (i : Z) :
  ~ (0 <= i < 12) -> lead_lookup i = Raise (KeyError i).
Proof.
  intros H. unfold lead_lookup, LEADS_ORDER_GENERAL.
  rewrite not_elem_of_list_to_map_1; [reflexivity|].
  cbn [fmap list_fmap fst]. rewrite !not_elem_of_cons. repeat split; try lia.
  apply not_elem_of_nil.
Qed.

(** [LEADS_ORDER_GENERAL[i]] is defined exactly for the indices 0..11,
    where it gives the codes in the order I, II, III, aVR, aVL, aVF,
    V1..V6; any other index raises [KeyError] with that index. *)
Theorem lead_order_table `{scp : ScpModule} (i : Z) :
  lead_lookup i
  = if bool_decide (0 <= i < 12)
    then Ok (canonical_lead_codes !!! Z.to_nat i)
    else Raise (KeyError i).
Proof.
  case_bool_decide.
  - now apply lead_lookup_canonical.
  - now apply lead_lookup_outside.
Qed.

(** ** Section 3 whenever it is built *)

Lemma lead_entry_inv `{scp : ScpModule} (self : ECGBasic) (i : Z) (x : bytes) :
  lead_entry self i = Ok x ->
  0 <= i < 12 /\ n_samples self <= 4294967295 /\
  x = lead_record self (canonical_lead_codes !!! Z.to_nat i).
Proof.
  unfold lead_entry. rewrite lead_order_table.
  case_bool_decide as Hi; [|discriminate]. run_dict.
  unfold pack_I, pack_B.
  destruct (pack_range 0 4294967295 4 1) as [a|e] eqn:Ea; [|discriminate].
  apply pack_range_inv in Ea as [_ ->]. run_dict.
  destruct (pack_range 0 4294967295 4 (n_samples self)) as [b|e] eqn:Eb; [|discriminate].
  apply pack_range_inv in Eb as [Hb ->]. run_dict.
  destruct (pack_range 0 255 1 _) as [c|e] eqn:Ec; [|discriminate].
  apply pack_range_inv in Ec as [_ ->]. run_dict.
  intros [= <-]. repeat split; try lia.
Qed.

Lemma leads_payload_inv `{scp : ScpModule} (self : ECGBasic) (p : bytes) :
  leads_payload self = Ok p -> leads_fit self /\ p = lead_definition self.
Proof.
  assert (Hl0 : 0 <= n_leads self) by (unfold n_leads; lia).
  unfold leads_payload, pack_B.
  destruct (pack_range 0 255 1 (n_leads self)) as [b1|e] eqn:E1; [|discriminate].
  apply pack_range_inv in E1 as [_ ->]. run_dict.
  destruct (pack_range 0 255 1 (flag_byte_of (n_leads self))) as [b2|e] eqn:E2;
    [|discriminate].
  apply pack_range_inv in E2 as [_ ->]. run_dict.
  destruct (gather (lead_entry self) (range (n_leads self))) as [es|e] eqn:Eg;
    [|discriminate].
  run_dict. intros [= <-].
  apply gather_inv in Eg as (g & Hg & ->).
  assert (Hle : n_leads self <= 12).
  { destruct (Z_le_gt_dec (n_leads self) 12) as [|Hgt]; [assumption|exfalso].
    assert (H12 : 12 ∈ range (n_leads self)) by (apply elem_of_seqZ; lia).
    apply Hg, lead_entry_inv in H12. lia. }
  split; [split; [exact Hle|]|].
  - destruct (Z.eq_dec (n_leads self) 0) as [|Hn]; [now left|right].
    assert (H0 : 0 ∈ range (n_leads self)) by (apply elem_of_seqZ; lia).
    apply Hg, lead_entry_inv in H0. lia.
  - unfold lead_definition, flag_byte_of. rewrite Z.lor_0_l. do 3 f_equal.
    rewrite <- (canonical_take (n_leads self)) by lia. rewrite map_map.
    apply map_ext_in. intros i Hi. apply list_elem_of_In in Hi.
    apply Hg, lead_entry_inv in Hi as (_ & _ & ->). reflexivity.
Qed.

(** Whenever lines 110-123 complete, the recording has at most 12
    leads and (unless it has none) fewer than 2^32 samples, and [s[3]]
    is the lead count, the flag byte and one 9-byte entry per lead in
    the order of the table; no other section is touched. This needs no
    assumption on the constants of [ecg_scp]. *)
Theorem build_leads_result `{scp : ScpModule}
    (self : ECGBasic) (s s' : sections) :
  build_leads self s = Ok s' ->
  leads_fit self /\ s' = <[3 := lead_definition self]> s /\
  forall k, k <> 3 -> s' !! k = s !! k.
Proof.
  rewrite build_leads_spec.
  destruct (leads_payload self) as [p|e] eqn:Ep; [|discriminate].
  apply leads_payload_inv in Ep as [Hfit ->]. run_dict. intros [= <-].
  split; [exact Hfit|]. split; [reflexivity|].
  intros k Hk. now rewrite lookup_insert_ne by congruence.
Qed.

Lemma build_leads_result_witness :
  leads_fit (default_ecg (ramp 2 3)) /\
  <[3 := @lead_definition scp_reference (default_ecg (ramp 2 3))]> empty_sections
  = <[3 := @lead_definition scp_reference (default_ecg (ramp 2 3))]> empty_sections /\
  forall k, k <> 3 ->
    <[3 := @lead_definition scp_reference (default_ecg (ramp 2 3))]> empty_sections !! k
    = empty_sections !! k.
Proof.
  apply (@build_leads_result scp_reference (default_ecg (ramp 2 3)) empty_sections).
  vm_compute. reflexivity.
Defined.

(** ** A recording without leads *)



(** ** Section 6 whenever it is built *)

Lemma int_1e6_div_inv (rate v : Z) :
  int_1e6_div rate = Ok v ->
  rate <> 0 /\ Z.abs rate < 2 ^ 1024 /\ v = 1000000 `quot` rate.
Proof.
  unfold int_1e6_div.
  case_bool_decide as H0; [discriminate|].
  case_bool_decide as H1; [discriminate|].
  intros [= <-]. repeat split; [exact H0|lia].
Qed.

Lemma serie_inv (self : ECGBasic) (i : Z) (x : bytes) :
  serie self i = Ok x ->
  (forall j, 0 <= j < Z.min (n_samples self) 32767 ->
             -32768 <= item (data self) i j <= 32767) /\
  x = encoded_serie self i.
Proof.
  unfold serie, capped_samples. rewrite max_samples_value. intros H.
  apply gather_inv in H as (g & Hg & ->). split.
  - intros j Hj.
    assert (Hin : j ∈ range (Z.min (n_samples self) 32767))
      by (apply elem_of_seqZ; lia).
    apply Hg in Hin. unfold pack_h in Hin. now apply pack_range_inv in Hin.
  - unfold encoded_serie. f_equal. apply map_ext_in. intros j Hj.
    apply list_elem_of_In, Hg in Hj. unfold pack_h in Hj.
    apply pack_range_inv in Hj as [_ Hj]. exact Hj.
Qed.

Lemma rhythm_payload_inv `{scp : ScpModule} (self : ECGBasic) (p : bytes) :
  rhythm_payload self = Ok p ->
  rhythm_header_fits self /\ samples_fit_int16 self /\ p = rhythm_data self.
Proof.
  unfold rhythm_payload.
  destruct (int_1e6_div (sample_rate self)) as [v|e] eqn:Ev; [|discriminate].
  apply int_1e6_div_inv in Ev as (Hr0 & Hr1 & ->). run_dict.
  unfold pack_H, pack_B.
  destruct (pack_range 0 65535 2 (ampl_nanovolt self)) as [a|e] eqn:Ea; [|discriminate].
  apply pack_range_inv in Ea as [Hampl ->]. run_dict.
  destruct (pack_range 0 65535 2 (1000000 `quot` sample_rate self)) as [b|e] eqn:Eb;
    [|discriminate].
  apply pack_range_inv in Eb as [Hint ->]. run_dict.
  destruct (pack_range 0 255 1 ENCODING_REAL) as [c|e] eqn:Ec; [|discriminate].
  apply pack_range_inv in Ec as [_ ->]. run_dict.
  destruct (pack_range 0 255 1 BIMODAL_COMPRESSION_FALSE) as [d|e] eqn:Ed;
    [|discriminate].
  apply pack_range_inv in Ed as [_ ->]. run_dict.
  destruct (gather (fun _ : Z => pack_range 0 65535 2 (capped_samples self * 2))
              (range (n_leads self))) as [counts|e] eqn:Eco; [|discriminate].
  run_dict.
  destruct (gather (serie self) (range (n_leads self))) as [series|e] eqn:Ese;
    [|discriminate].
  run_dict. intros [= <-].
  apply gather_inv in Eco as (g & Hg & ->).
  apply gather_inv in Ese as (h & Hh & ->).
  split; [repeat split; assumption || lia|]. split.
  - intros i j Hi Hj.
    assert (Hin : i ∈ range (n_leads self)) by (apply elem_of_seqZ; lia).
    apply Hh, serie_inv in Hin as [Hfit _]. now apply Hfit.
  - assert (Eg : map g (range (n_leads self))
                 = map (fun _ => le_bytes 2 (2 * Z.min (n_samples self) 32767))
                     (range (n_leads self))).
    { apply map_ext_in. intros i Hi.
      apply list_elem_of_In, Hg, pack_range_inv in Hi as [_ ->].
      unfold capped_samples. rewrite max_samples_value. f_equal. lia. }
    assert (Eh : map h (range (n_leads self))
                 = map (encoded_serie self) (range (n_leads self))).
    { apply map_ext_in. intros i Hi.
      apply list_elem_of_In, Hh, serie_inv in Hi as [_ ->]. reflexivity. }
    unfold rhythm_data. rewrite Eg, Eh. reflexivity.
Qed.

Lemma length_encoded_serie (self : ECGBasic) (i : Z) :
  length (encoded_serie self i) = Z.to_nat (2 * Z.min (n_samples self) 32767).
Proof.
  unfold encoded_serie.
  rewrite (length_chunks _ 2) by (intros; apply length_le_bytes).
  unfold range. rewrite length_seqZ. lia.
Qed.

Lemma len_rhythm_data `{scp : ScpModule} (self : ECGBasic) :
  len (rhythm_data self)
  = 6 + 2 * n_leads self + n_leads self * (2 * Z.min (n_samples self) 32767).
Proof.
  assert (Hl0 : 0 <= n_leads self) by (unfold n_leads; lia).
  assert (Hs0 : 0 <= n_samples self) by (unfold n_samples; lia).
  unfold len, rhythm_data. rewrite !length_app, !length_le_bytes.
  rewrite (length_chunks _ 2) by (intros; apply length_le_bytes).
  rewrite (length_chunks _ (Z.to_nat (2 * Z.min (n_samples self) 32767)))
    by (intros; apply length_encoded_serie).
  unfold range. rewrite length_seqZ. nia.
Qed.

(** Whenever lines 125-144 complete, the sample rate is not 0, the
    amplitude quantum and the sample interval are 16-bit values and
    every sample below the cap is a signed 16-bit value; [s[6]] is then
    the header, the per-lead counts and the series, and it holds
    6 + 2 * n_leads + n_leads * 2 * min(n_samples, 32767) bytes. *)
Theorem build_rhythm_result `{scp : ScpModule}
    (self : ECGBasic) (s s' : sections) :
  build_rhythm self s = Ok s' ->
  rhythm_header_fits self /\ samples_fit_int16 self /\
  s' = <[6 := rhythm_data self]> s /\
  len (s' !!! 6)
  = 6 + 2 * n_leads self + n_leads self * (2 * Z.min (n_samples self) 32767).
Proof.
  rewrite build_rhythm_spec.
  destruct (rhythm_payload self) as [p|e] eqn:Ep; [|discriminate].
  apply rhythm_payload_inv in Ep as (Hh & Hf & ->). run_dict. intros [= <-].
  split; [exact Hh|]. split; [exact Hf|]. split; [reflexivity|].
  rewrite lookup_total_insert_eq. apply len_rhythm_data.
Qed.

Lemma build_rhythm_result_witness :
  rhythm_header_fits (default_ecg (ramp 2 3)) /\
  samples_fit_int16 (default_ecg (ramp 2 3)) /\
  <[6 := @rhythm_data scp_reference (default_ecg (ramp 2 3))]> empty_sections
  = <[6 := @rhythm_data scp_reference (default_ecg (ramp 2 3))]> empty_sections /\
  len (<[6 := @rhythm_data scp_reference (default_ecg (ramp 2 3))]> empty_sections !!! 6)
  = 6 + 2 * n_leads (default_ecg (ramp 2 3))
    + n_leads (default_ecg (ramp 2 3))
      * (2 * Z.min (n_samples (default_ecg (ramp 2 3))) 32767).
Proof.
  apply (@build_rhythm_result scp_reference (default_ecg (ramp 2 3)) empty_sections).
  vm_compute. reflexivity.
Defined.

(** ** Sample rates that cannot be exported *)

(** A sample rate of 0 makes line 127 raise [ZeroDivisionError]; a
    rate from 1 to 15 gives a sample interval above 65535 and line 128
    or 129 raises [struct.error]. Either way Section 6 is not built,
    whatever the recording holds. *)
Theorem low_sample_rate_raises `{scp : ScpModule} (self : ECGBasic) (s : sections) :
  0 <= sample_rate self <= 15 ->
  build_rhythm self s
  = Raise (if bool_decide (sample_rate self = 0)
           then ZeroDivisionError else StructError).
Proof.
  intros Hr. rewrite build_rhythm_spec. unfold rhythm_payload, int_1e6_div.
  case_bool_decide as H0; [reflexivity|].
  rewrite bool_decide_eq_false_2 by lia. run_dict.
  unfold pack_H.
  destruct (pack_range_cases 0 65535 2 (ampl_nanovolt self)) as [-> | ->];
    [run_dict|reflexivity].
  rewrite (pack_range_raise 0 65535 2 (1000000 `quot` sample_rate self));
    [reflexivity|].
  rewrite Z.quot_div_nonneg by lia.
  assert (1000000 / 15 <= 1000000 / sample_rate self)
    by (apply Z.div_le_compat_l; lia).
  change (1000000 / 15) with 66666 in *. lia.
Qed.

Lemma low_sample_rate_raises_witness :
  @build_rhythm scp_reference (with_rate (default_ecg (ramp 2 3)) 0) empty_sections
  = Raise (if bool_decide (sample_rate (with_rate (default_ecg (ramp 2 3)) 0) = 0)
           then ZeroDivisionError else StructError).
Proof.
  apply (@low_sample_rate_raises scp_reference
           (with_rate (default_ecg (ramp 2 3)) 0) empty_sections).
  simpl. lia.
Defined.

(** ** A sample that is not a 16-bit value *)





(** ** Samples past the cap never reach the file *)

Lemma same_encoded_payloads `{scp : ScpModule} (e1 e2 : ECGBasic) :
  same_encoded_input e1 e2 ->
  patient_payload e1 = patient_payload e2 /\
  leads_payload e1 = leads_payload e2 /\
  rhythm_payload e1 = rhythm_payload e2.
Proof.
  intros (H0 & H1 & Hitem & Hrate & Hampl & Hts & Hname & Hcase & Hsex & Hw & Ha).
  assert (Hl : n_leads e1 = n_leads e2) by (unfold n_leads; now rewrite H0).
  assert (Hs : n_samples e1 = n_samples e2) by (unfold n_samples; now rewrite H1).
  split; [|split].
  - unfold patient_payload, patient_fields, sex_code, weight_unit, age_unit.
    now rewrite Hname, Hcase, Hsex, Hw, Ha, Hts.
  - unfold leads_payload. rewrite Hl.
    rewrite (gather_ext (lead_entry e1) (lead_entry e2)); [reflexivity|].
    intros i _. unfold lead_entry. now rewrite Hs.
  - unfold rhythm_payload, capped_samples. rewrite Hrate, Hampl, Hl, Hs.
    rewrite (gather_ext (serie e1) (serie e2)); [reflexivity|].
    intros i Hi. apply elem_of_seqZ in Hi. unfold serie, capped_samples. rewrite Hs.
    apply gather_ext. intros j Hj. apply elem_of_seqZ in Hj.
    rewrite max_samples_value in Hj.
    rewrite Hitem; [reflexivity|lia|lia].
Qed.

(** Two recordings of the same shape that agree on the first
    min(n_samples, 32767) samples of every lead, exported with the same
    metadata and configuration, give the same outcome on every path and
    file system: whatever a recording holds past sample 32767 has no
    effect on the file. *)
Theorem samples_past_cap_ignored `{scp : ScpModule} (e1 e2 : ECGBasic) :
  same_encoded_input e1 e2 ->
  forall (filename : string) (fs : filesystem),
    export_scp e1 filename fs = export_scp e2 filename fs.
Proof.
  intros H filename fs. apply same_encoded_payloads in H as (Hp & Hl & Hr).
  unfold export_scp. rewrite !build_file_spec. now rewrite Hp, Hl, Hr.
Qed.

Lemma samples_past_cap_ignored_witness :
  item (data long_take) 0 39999 <> item (data long_take') 0 39999 /\
  forall (filename : string) (fs : filesystem),
    @export_scp scp_reference long_take filename fs
    = @export_scp scp_reference long_take' filename fs.
Proof.
  split; [vm_compute; congruence|].
  apply (@samples_past_cap_ignored scp_reference long_take long_take').
  unfold same_encoded_input, n_leads, n_samples. simpl.
  repeat split; try reflexivity.
  intros i j Hi Hj. destruct (Z.ltb_spec j 32767); [reflexivity|lia].
Defined.

(** ** The dictionary at line 146 *)

Lemma patient_payload_inv `{scp : ScpModule} (self : ECGBasic) (p : bytes) :
  patient_payload self = Ok p -> is_byte (sex_code self) /\ p = patient_data self.
Proof.
  unfold patient_payload, pack_B.
  destruct (pack_range 0 255 1 (sex_code self)) as [b|e] eqn:Eb; [|discriminate].
  apply pack_range_inv in Eb as [Hb ->]. run_dict. intros [= <-].
  split; [exact Hb|reflexivity].
Qed.

Lemma len_lead_definition `{scp : ScpModule} (self : ECGBasic) :
  n_leads self <= 12 -> len (lead_definition self) = 2 + 9 * n_leads self.
Proof.
  intros Hl.
  assert (Hl0 : 0 <= n_leads self) by (unfold n_leads; lia).
  unfold len, lead_definition.
  rewrite !length_app, !length_le_bytes, length_lead_records, length_take.
  simpl length. lia.
Qed.

Lemma build_sections_payloads `{scp : ScpModule} (self : ECGBasic) (s : sections) :
  build_sections self = Ok s ->
  is_byte (sex_code self) /\ leads_fit self /\
  rhythm_header_fits self /\ samples_fit_int16 self /\
  s = final_sections (patient_data self) (lead_definition self) (rhythm_data self).
Proof.
  intros H. apply build_sections_inv in H as (p1 & p3 & p6 & H1 & H3 & H6 & ->).
  apply patient_payload_inv in H1 as [Hsex ->].
  apply leads_payload_inv in H3 as [Hfit ->].
  apply rhythm_payload_inv in H6 as (Hh & Hf & ->).
  split; [exact Hsex|]. split; [exact Hfit|]. split; [exact Hh|].
  split; [exact Hf|reflexivity].
Qed.

(** When the four sections are built, the dictionary holds exactly the
    keys 0..11; ids 2, 4, 5 and 7..11 are still empty; Section 3 holds
    2 + 9 * n_leads bytes and Section 6 at least its 6 header bytes, so
    both are always among the sections written to the record. *)
Theorem sections_at_assembly `{scp : ScpModule} (self : ECGBasic) (s : sections) :
  build_sections self = Ok s ->
  (forall k, is_Some (s !! k) <-> 0 <= k < 12) /\
  (forall k, k ∈ [2; 4; 5; 7; 8; 9; 10; 11] -> s !! k = Some []) /\
  len (s !!! 3) = 2 + 9 * n_leads self /\
  len (s !!! 6) >= 6 /\
  3 ∈ present s /\ 6 ∈ present s.
Proof.
  intros H. apply build_sections_payloads in H as (_ & [Hl _] & _ & _ & ->).
  assert (Hl0 : 0 <= n_leads self) by (unfold n_leads; lia).
  assert (Hs0 : 0 <= n_samples self) by (unfold n_samples; lia).
  assert (E3 : final_sections (patient_data self) (lead_definition self)
                 (rhythm_data self) !!! 3 = lead_definition self).
  { apply lookup_total_correct. now rewrite final_sections_lookup. }
  assert (E6 : final_sections (patient_data self) (lead_definition self)
                 (rhythm_data self) !!! 6 = rhythm_data self).
  { apply lookup_total_correct. now rewrite final_sections_lookup. }
  split; [|split; [|split; [|split; [|split]]]].
  - intros k. rewrite final_sections_lookup. split.
    + repeat case_decide; subst; try lia. intros [x Hx]. discriminate.
    + intros Hk. repeat case_decide; eauto. lia.
  - intros k Hk. rewrite final_sections_lookup.
    repeat (apply elem_of_cons in Hk as [->|Hk]; [reflexivity|]). inversion Hk.
  - rewrite E3. now apply len_lead_definition.
  - rewrite E6, len_rhythm_data. nia.
  - unfold present. apply list_elem_of_filter. split.
    + unfold populated. rewrite E3, len_lead_definition by exact Hl. lia.
    + apply elem_of_seqZ. lia.
  - unfold present. apply list_elem_of_filter. split.
    + unfold populated. rewrite E6, len_rhythm_data. nia.
    + apply elem_of_seqZ. lia.
Qed.

Lemma sections_at_assembly_witness :
  exists s,
    @build_sections scp_reference no_leads = Ok s /\
    (forall k, is_Some (s !! k) <-> 0 <= k < 12) /\
    (forall k, k ∈ [2; 4; 5; 7; 8; 9; 10; 11] -> s !! k = Some []) /\
    len (s !!! 3) = 2 + 9 * n_leads no_leads /\
    len (s !!! 6) >= 6 /\
    3 ∈ present s /\ 6 ∈ present s.
Proof.
  eexists. split; [vm_compute; reflexivity|].
  eapply (@sections_at_assembly scp_reference no_leads).
  vm_compute. reflexivity.
Defined.

(** ** The pointer table is the same for every export *)

Lemma len_empty_pointer_table `{scp : ScpModule} :
  pointer_fields_have_length ->
  len empty_pointer_table = 12 * POINTER_FIELD_LEN.
Proof.
  intros Hw. unfold empty_pointer_table, len. rewrite length_app.
  assert (H0 : 0 <= POINTER_FIELD_LEN).
  { rewrite <- (Hw 0 0 0). unfold len. lia. }
  rewrite (length_chunks _ (Z.to_nat POINTER_FIELD_LEN)).
  - rewrite length_seqZ. pose proof (Hw 0 section0_length (SCPECG_HEADER_LEN + 1)) as H.
    unfold len in H. lia.
  - intros y. pose proof (Hw y 0 (SCPECG_HEADER_LEN + 1 + section0_length)) as H.
    unfold len in H. lia.
Qed.

(** Section 0 does not depend on the instance: any two exports that
    build their sections hold the same pointer table, whose entries for
    ids 1..11 all declare length 0. Each field having the width
    [POINTER_FIELD_LEN], the table holds 12 fields and the length that
    its own entry declares is its header plus its payload. *)
Theorem pointer_table_is_constant `{scp : ScpModule}
    (e1 e2 : ECGBasic) (s1 s2 : sections) :
  pointer_fields_have_length ->
  build_sections e1 = Ok s1 -> build_sections e2 = Ok s2 ->
  s1 !! 0 = Some empty_pointer_table /\
  s1 !! 0 = s2 !! 0 /\
  len (s1 !!! 0) = 12 * POINTER_FIELD_LEN /\
  section0_length = SECTION_HEADER_LEN + len (s1 !!! 0).
Proof.
  intros Hw H1 H2.
  apply pointer_table_ignores_payloads in H1, H2.
  pose proof (lookup_total_correct _ _ _ H1) as E.
  split; [exact H1|]. split; [now rewrite H1, H2|].
  rewrite E, len_empty_pointer_table by exact Hw.
  split; [reflexivity|]. unfold section0_length. lia.
Qed.

Lemma pointer_table_is_constant_witness :
  exists s1 s2,
    @build_sections scp_reference (default_ecg (ramp 1 1)) = Ok s1 /\
    @build_sections scp_reference (default_ecg (ramp 2 3)) = Ok s2 /\
    s1 !! 0 = Some (@empty_pointer_table scp_reference) /\
    s1 !! 0 = s2 !! 0 /\
    len (s1 !!! 0) = 12 * 10 /\
    @section0_length scp_reference = 16 + len (s1 !!! 0).
Proof.
  eexists. eexists.
  split; [vm_compute; reflexivity|]. split; [vm_compute; reflexivity|].
  eapply (@pointer_table_is_constant scp_reference
            (default_ecg (ramp 1 1)) (default_ecg (ramp 2 3))).
  - intros a b c. reflexivity.
  - vm_compute. reflexivity.
  - vm_compute. reflexivity.
Defined.

(** ** The record when pointer fields and tags are not empty *)

Lemma len_app (a b : bytes) : len (a ++ b) = len a + len b.
Proof. unfold len. rewrite length_app. lia. Qed.

Lemma len_nonneg (a : bytes) : 0 <= len a.
Proof. unfold len. lia. Qed.

Lemma populated_final `{scp : ScpModule} (self : ECGBasic) :
  encoders_nonempty -> n_leads self <= 12 ->
  let s := final_sections (patient_data self) (lead_definition self)
             (rhythm_data self) in
  populated s 0 /\ populated s 1 /\ ~ populated s 2 /\
  populated s 3 /\ populated s 6.
Proof.
  intros [Hp Ht] Hl s.
  assert (Hl0 : 0 <= n_leads self) by (unfold n_leads; lia).
  assert (Hs0 : 0 <= n_samples self) by (unfold n_samples; lia).
  assert (E0 : s !!! 0 = empty_pointer_table)
    by (apply lookup_total_correct; subst s; now rewrite final_sections_lookup).
  assert (E1 : s !!! 1 = patient_data self)
    by (apply lookup_total_correct; subst s; now rewrite final_sections_lookup).
  assert (E3 : s !!! 3 = lead_definition self)
    by (apply lookup_total_correct; subst s; now rewrite final_sections_lookup).
  assert (E6 : s !!! 6 = rhythm_data self)
    by (apply lookup_total_correct; subst s; now rewrite final_sections_lookup).
  unfold populated. rewrite E0, E1, E3, E6.
  split; [|split; [|split; [|split]]].
  - unfold empty_pointer_table. rewrite len_app.
    pose proof (Hp 0 section0_length (SCPECG_HEADER_LEN + 1)).
    pose proof (len_nonneg (concat (map (fun sect_id =>
      make_pointer_field sect_id 0 (SCPECG_HEADER_LEN + 1 + section0_length))
      (seqZ 1 11)))). lia.
  - unfold patient_data, encode_fields, patient_fields. cbn [map concat fst snd].
    rewrite len_app.
    pose proof (Ht TAG_PATIENT_ID (make_asciiz (patient_name self))).
    match goal with |- len _ + len ?r > 0 => pose proof (len_nonneg r) end. lia.
  - change (~ populated s 2). subst s. apply final_sections_unpopulated.
    repeat constructor.
  - rewrite len_lead_definition by exact Hl. lia.
  - rewrite len_rhythm_data. nia.
Qed.

(** Pointer fields and tags being non-empty byte strings, every export
    that reaches line 150 writes exactly the sections 0, 1, 3 and 6, in
    that order, after a size field that counts the fixed header, four
    section headers and the four payloads. *)
Theorem record_has_four_sections `{scp : ScpModule}
    (self : ECGBasic) (s : sections) (scp_ecg : bytes) :
  encoders_nonempty ->
  build_sections self = Ok s -> build_record s = Ok scp_ecg ->
  present s = [0; 1; 3; 6] /\
  scp_ecg = le_bytes 4 (record_size s)
            ++ pack_section 0 (s !!! 0) ++ pack_section 1 (s !!! 1)
            ++ pack_section 3 (s !!! 3) ++ pack_section 6 (s !!! 6) /\
  record_size s
  = SCPECG_HEADER_LEN + 4 * SECTION_HEADER_LEN
    + len (s !!! 0) + len (s !!! 1) + len (s !!! 3) + len (s !!! 6).
Proof.
  intros Hne Hs Hr.
  destruct (record_layout self s scp_ecg Hs Hr) as [-> _].
  apply build_sections_payloads in Hs as (_ & [Hl _] & _ & _ & ->).
  destruct (populated_final self Hne Hl) as (P0 & P1 & P2 & P3 & P6).
  assert (Ep : present (final_sections (patient_data self) (lead_definition self)
                          (rhythm_data self)) = [0; 1; 3; 6]).
  { rewrite present_assembled. unfold assembled.
    rewrite (filter_cons_True _ 0) by exact P0.
    rewrite (filter_cons_True _ 1) by exact P1.
    rewrite (filter_cons_False _ 2) by exact P2.
    rewrite (filter_cons_True _ 3) by exact P3.
    rewrite (filter_cons_True _ 6) by exact P6.
    reflexivity. }
  split; [exact Ep|]. unfold record_size, record_blocks. rewrite Ep.
  cbn [map concat sumZ foldr]. split.
  - now rewrite app_nil_r.
  - lia.
Qed.

Lemma record_has_four_sections_witness :
  exists s scp_ecg,
    @build_sections scp_reference no_leads = Ok s /\
    @build_record scp_reference s = Ok scp_ecg /\
    present s = [0; 1; 3; 6] /\
    scp_ecg = le_bytes 4 (@record_size scp_reference s)
              ++ ref_pack_section 0 (s !!! 0) ++ ref_pack_section 1 (s !!! 1)
              ++ ref_pack_section 3 (s !!! 3) ++ ref_pack_section 6 (s !!! 6) /\
    @record_size scp_reference s
    = 6 + 4 * 16 + len (s !!! 0) + len (s !!! 1) + len (s !!! 3) + len (s !!! 6).
Proof.
  eexists. eexists.
  split; [vm_compute; reflexivity|]. split; [vm_compute; reflexivity|].
  eapply (@record_has_four_sections scp_reference no_leads).
  - split.
    + intros a b c. unfold len. simpl. lia.
    + intros t v. unfold len. simpl. lia.
  - vm_compute. reflexivity.
  - vm_compute. reflexivity.
Defined.

(** ** The size field and the length of the file *)

Lemma len_blocks `{scp : ScpModule} (s : sections) (ids : list Z) :
  sections_have_header ->
  len (concat (map (fun sect_id => pack_section sect_id (s !!! sect_id)) ids))
  = sumZ (map (fun sect_id => SECTION_HEADER_LEN + len (s !!! sect_id)) ids).
Proof.
  intros Hh. induction ids as [|i ids IH]; [reflexivity|].
  cbn [map concat sumZ foldr]. rewrite len_app, IH, Hh. reflexivity.
Qed.

(** [pack_section] adding [SECTION_HEADER_LEN] bytes to its payload,
    the file of every successful export holds the value of its size
    field plus 6 - SCPECG_HEADER_LEN bytes; the size field is read back
    from bytes 2..5. With a header length of 6 the size field is the
    length of the whole file, checksum included. *)
Theorem size_field_measures_file `{scp : ScpModule}
    (self : ECGBasic) (filename : string) (fs fs' : filesystem) (r : string) :
  sections_have_header ->
  export_scp self filename fs = (Ok r, fs') ->
  exists s content,
    build_sections self = Ok s /\
    files fs' !! filename = Some content /\
    le_decode (take 4 (drop 2 content)) = record_size s /\
    len content = record_size s + (6 - SCPECG_HEADER_LEN).
Proof.
  intros Hh Hx. apply export_scp_written in Hx as (content & Hb & Hf & _).
  unfold build_file in Hb.
  destruct (build_sections self) as [s|e] eqn:Es; [|discriminate].
  rewrite bind_Ok in Hb.
  destruct (build_record s) as [scp_ecg|e] eqn:Er; [|discriminate].
  rewrite bind_Ok in Hb. unfold pack_H in Hb.
  rewrite pack_range_ok in Hb by apply crc_hqx_range.
  rewrite bind_Ok, ret_Ok in Hb.
  assert (Ec : content = le_bytes 2 (crc_hqx scp_ecg 65535) ++ scp_ecg)
    by congruence.
  clear Hb. subst content.
  destruct (record_layout self s scp_ecg Es Er) as [-> Hsize].
  exists s. eexists. split; [reflexivity|]. split; [exact Hf|]. split.
  - rewrite drop_app_length' by now rewrite length_le_bytes.
    rewrite take_app_length' by now rewrite length_le_bytes.
    rewrite le_decode_le_bytes. apply Z.mod_small.
    change (2 ^ (8 * Z.of_nat 4)) with 4294967296. lia.
  - rewrite !len_app. unfold record_blocks. rewrite len_blocks by exact Hh.
    unfold len at 1 2. rewrite !length_le_bytes. unfold record_size. lia.
Qed.

Lemma size_field_measures_file_witness :
  exists s content,
    @build_sections scp_reference (default_ecg (ramp 2 3)) = Ok s /\
    files (snd (@export_scp scp_reference (default_ecg (ramp 2 3)) "out.scp" busy_fs))
      !! "out.scp"%string = Some content /\
    le_decode (take 4 (drop 2 content)) = @record_size scp_reference s /\
    len content = @record_size scp_reference s + (6 - 6).
Proof.
  apply (@size_field_measures_file scp_reference (default_ecg (ramp 2 3))
           "out.scp" busy_fs
           (snd (@export_scp scp_reference (default_ecg (ramp 2 3)) "out.scp" busy_fs))
           "out.scp").
  - intros i p. unfold len. simpl. lia.
  - vm_compute. reflexivity.
Defined.

(** ** What an export does to the file system *)


Example export_replaces_one_file :
  let fs' := snd (@export_scp scp_reference (default_ecg (ramp 2 3)) "out.scp" busy_fs) in
  files fs' !! "notes.txt"%string = Some (ascii_bytes "keep") /\
  (len <$> files fs' !! "out.scp"%string) = Some 327 /\
  @export_scp scp_reference (default_ecg (ramp 2 3)) "ro.scp" busy_fs
  = (Raise OSError, busy_fs).
Proof. vm_compute. repeat split; reflexivity. Qed.

(** ** When an export succeeds *)





Example no_leads_exported :
  fst (@export_scp scp_reference no_leads "out.scp" busy_fs) = Ok "out.scp"%string.
Proof. vm_compute. reflexivity. Qed.

(** ** Weight and age *)

(** The weight field carries the weight with the unit "unspecified"
    when the weight is 0 and "kilogram" for any other value, negative
    ones included; the age field does the same with "years"; the last
    of the ten fields is the end tag with an empty value. *)
Theorem weight_and_age_units `{scp : ScpModule} (self : ECGBasic) (s : sections) :
  sex_codes_are_bytes ->
  exists fields,
    build_patient self s = Ok (<[1 := encode_fields fields]> s) /\
    length fields = 10%nat /\
    fields !! 4%nat
    = Some (TAG_PATIENT_WEIGHT,
            make_3bytes_intval_unit (patient_weight self)
              (if bool_decide (patient_weight self = 0)
               then WEIGHT_UNSPECIFIED else WEIGHT_KILOGRAM)) /\
    fields !! 5%nat
    = Some (TAG_PATIENT_AGE,
            make_3bytes_intval_unit (patient_age self)
              (if bool_decide (patient_age self = 0)
               then AGE_UNSPECIFIED else AGE_YEARS)) /\
    fields !! 9%nat = Some (TAG_EOF, []).
Proof.
  intros (Hm & Hf & Hu).
  exists (patient_fields self [byte_of_Z (sex_code self)]).
  split; [|repeat split].
  rewrite build_patient_spec, patient_payload_ok by now apply sex_code_is_byte.
  reflexivity.
Qed.

Lemma weight_and_age_units_witness :
  exists fields,
    @build_patient scp_reference (with_weight_age (default_ecg (ramp 1 1)) (-3) 45) ∅
    = Ok (<[1 := @encode_fields scp_reference fields]> ∅) /\
    length fields = 10%nat /\
    fields !! 4%nat
    = Some (7, le_bytes 2 (-3) ++ le_bytes 1 (if bool_decide (-3 = 0) then 0 else 1)) /\
    fields !! 5%nat
    = Some (4, le_bytes 2 45 ++ le_bytes 1 (if bool_decide (45 = 0) then 0 else 1)) /\
    fields !! 9%nat = Some (255, []).
Proof.
  apply (@weight_and_age_units scp_reference
           (with_weight_age (default_ecg (ramp 1 1)) (-3) 45) ∅).
  unfold sex_codes_are_bytes, is_byte. simpl. lia.
Defined.

(** ** The pointer loop on any dictionary *)

Lemma pointer_fields_offsets `{scp : ScpModule}
    (s : sections) (ids : list Z) (index : Z) :
  pointer_fields s ids index
  = concat (imap (fun n sect_id =>
                    make_pointer_field sect_id (declared_length (s !!! sect_id))
                      (index + sumZ (map (fun j => declared_length (s !!! j))
                                       (take n ids))))
              ids).
Proof.
  revert index. induction ids as [|i ids IH]; intros index; [reflexivity|].
  cbn [pointer_fields imap concat take map sumZ foldr].
  rewrite Z.add_0_r. f_equal. rewrite IH. f_equal.
  apply imap_ext. intros n k _. cbn [compose take map sumZ foldr].
  f_equal. unfold sumZ. lia.
Qed.

(** Run on a dictionary that holds every id from 1 to 11, lines 73-83
    store in [s[0]] twelve pointer fields: the one of Section 0, then
    for each id in ascending order its declared length (0 for an empty
    payload, header plus payload otherwise) at the offset reached by
    adding the declared lengths of the ids before it to the end of
    Section 0; no other entry of the dictionary changes. *)
Theorem pointer_loop_follows_cursor `{scp : ScpModule} (s : sections) :
  (forall i, 1 <= i < 12 -> is_Some (s !! i)) ->
  build_pointers s
  = Ok (<[0 := make_pointer_field 0 section0_length (SCPECG_HEADER_LEN + 1)
              ++ concat (imap (fun n sect_id =>
                   make_pointer_field sect_id (declared_length (s !!! sect_id))
                     (SCPECG_HEADER_LEN + 1 + section0_length
                      + sumZ (map (fun j => declared_length (s !!! j))
                                (take n (seqZ 1 11)))))
                 (seqZ 1 11))]> s).
Proof.
  intros Hs. rewrite build_pointers_spec by exact Hs.
  unfold pointer_table_for. now rewrite pointer_fields_offsets.
Qed.

Lemma pointer_loop_follows_cursor_witness :
  @build_pointers scp_reference
    (@final_sections scp_reference (ascii_bytes "abc") [] (ascii_bytes "de"))
  = Ok (<[0 := le_bytes 2 0 ++ le_bytes 4 136 ++ le_bytes 4 7
              ++ concat (imap (fun n sect_id =>
                   @make_pointer_field scp_reference sect_id
                     (@declared_length scp_reference
                        (@final_sections scp_reference (ascii_bytes "abc") []
                           (ascii_bytes "de") !!! sect_id))
                     (6 + 1 + 136
                      + sumZ (map (fun j =>
                           @declared_length scp_reference
                             (@final_sections scp_reference (ascii_bytes "abc") []
                                (ascii_bytes "de") !!! j))
                                (take n (seqZ 1 11)))))
                 (seqZ 1 11))]>
          (@final_sections scp_reference (ascii_bytes "abc") [] (ascii_bytes "de"))).
Proof.
  apply (@pointer_loop_follows_cursor scp_reference
           (@final_sections scp_reference (ascii_bytes "abc") [] (ascii_bytes "de"))).
  intros i Hi. apply final_sections_is_Some. lia.
Defined.

Example pointer_loop_on_payloads :
  match @build_pointers scp_reference
          (@final_sections scp_reference (ascii_bytes "abc") [] (ascii_bytes "de"))
  with
  | Ok s => map Z_of_byte (take 20 (drop 10 (s !!! 0)))
  | Raise _ => []
  end
  = [1; 0; 19; 0; 0; 0; 143; 0; 0; 0; 2; 0; 0; 0; 0; 0; 162; 0; 0; 0].
Proof. vm_compute. reflexivity. Qed.
